(** * Plugin selection of the AI request pipeline (aiCore/plugins/PluginBuilder)

    A shallow embedding of [buildPlugins] and of the configuration record of
    [aiCore/types/middlewareConfig.ts], followed by the properties of the
    selection policy.

    [buildPlugins] is straight-line code: twelve [if] statements, each of
    which may push one plugin on a local array, and one call of the logger.
    Everything else it does is a call of an imported function.  The
    embedding keeps that shape: the function is a program over the imported
    functions ([Prog], a tree of external calls), and the imported functions
    get their meaning from an interpreter ([run] for pure collaborators,
    [runE] for collaborators that may throw).  A second embedding,
    [buildPluginsJs], is the function on a context that was not
    type-checked, where it can throw a TypeError of its own. *)

From Stdlib Require Import String Ascii List Bool ZArith Lia Sorted SpecFloat.
Import ListNotations.
Open Scope string_scope.

Set Implicit Arguments.

(** ** Data model *)

(** The declarations of [@renderer/types] and of the ai-core package are
    imported by the source as types only.  The parts of them that
    [buildPlugins] never reads are kept abstract. *)
Class RendererTypes : Type := {
  ProviderRest : Type;          (* the fields of Provider other than id, type, anthropicCacheControl *)
  ModelRest : Type;             (* the fields of Model other than id *)
  AssistantRest : Type;         (* the fields of Assistant other than settings *)
  AssistantSettingsRest : Type; (* the fields of the settings other than reasoning_effort *)
  ReasoningEffort : Type;       (* the values of reasoning_effort *)
  MCPTool : Type;
  Message : Type;
  OnChunk : Type;               (* (chunk: Chunk) => void *)
  WebSearchPluginConfig : Type
}.

Section PluginBuilder.

Context {T : RendererTypes}.

(** [provider.anthropicCacheControl]; [tokenThreshold] is a JS number, that
    is an IEEE 754 double: a zero of either sign, an infinity, NaN or a
    finite value. *)
Record AnthropicCacheControl : Type := {
  tokenThreshold : spec_float
}.

Record Provider : Type := {
  provider_id : string;
  provider_type : string;
  anthropicCacheControl : option AnthropicCacheControl;
  provider_rest : ProviderRest
}.

Record Model : Type := {
  model_id : string;
  model_rest : ModelRest
}.

Record AssistantSettings : Type := {
  reasoning_effort : option ReasoningEffort;
  settings_rest : AssistantSettingsRest
}.

Record Assistant : Type := {
  settings : option AssistantSettings;
  assistant_rest : AssistantRest
}.

Inductive KnowledgeRecognition : Type := kr_off | kr_on.

(** [AiSdkMiddlewareConfig & { assistant: Assistant; topicId?: string }].
    An optional field is an [option]; [None] is JS [undefined].  The
    intersection type makes [assistant] required, but the function reads it
    with [?.], so an absent assistant is kept representable. *)
Record Config : Type := {
  streamOutput : bool;
  onChunk : option OnChunk;
  assistant : option Assistant;
  enableReasoning : bool;
  isPromptToolUse : bool;
  isSupportedToolUse : bool;
  isImageGenerationEndpoint : bool;
  enableWebSearch : bool;
  enableGenerateImage : bool;
  enableUrlContext : bool;
  mcpTools : option (list MCPTool);
  uiMessages : option (list Message);
  webSearchPluginConfig : option WebSearchPluginConfig;
  knowledgeRecognition : option KnowledgeRecognition;
  mcpMode : option string;
  topicId : option string
}.

Record BuildPluginsContext : Type := {
  provider : Provider;
  model : Model;
  config : Config
}.

(** The options object of [createTelemetryPlugin]. *)
Record TelemetryOptions : Type := {
  tel_enabled : bool;
  tel_topicId : string;
  tel_assistant : option Assistant
}.

(** The options object of [createPromptToolUsePlugin]. *)
Record PromptToolUseOptions : Type := {
  ptu_enabled : bool;
  ptu_mcpMode : option string
}.

(** A plugin instance.  The plugin modules are not part of this file; the
    selector never looks inside a plugin, it only holds and orders them.  An
    instance is therefore represented by the factory that made it together
    with the arguments the factory was given. *)
Inductive AiPlugin : Type :=
| TelemetryPlugin (opts : TelemetryOptions)
| ReasoningExtractionPlugin (tagName : string)
| SimulateStreamingPlugin
| AnthropicCachePlugin
| OpenrouterReasoningPlugin
| NoThinkPlugin
| QwenThinkingPlugin (enableThinking : bool)
| OpenrouterGenerateImagePlugin
| SkipGeminiThoughtSignaturePlugin (aiSdkId : string)
| WebSearchPlugin (cfg : WebSearchPluginConfig)
| SearchOrchestrationPlugin (a : option Assistant) (topic : string)
| PromptToolUsePlugin (opts : PromptToolUseOptions).

(** The twelve plugins of the selection table. *)
Inductive PluginKind : Type :=
| Telemetry
| ReasoningExtraction
| SimulateStreaming
| CacheControl
| ReasoningRedaction
| ThinkSuppression
| ThinkingTokenControl
| ImageGenerationRedirect
| SignatureStripping
| WebSearch
| SearchOrchestration
| PromptToolUse.

Definition kind_of (p : AiPlugin) : PluginKind :=
  match p with
  | TelemetryPlugin _ => Telemetry
  | ReasoningExtractionPlugin _ => ReasoningExtraction
  | SimulateStreamingPlugin => SimulateStreaming
  | AnthropicCachePlugin => CacheControl
  | OpenrouterReasoningPlugin => ReasoningRedaction
  | NoThinkPlugin => ThinkSuppression
  | QwenThinkingPlugin _ => ThinkingTokenControl
  | OpenrouterGenerateImagePlugin => ImageGenerationRedirect
  | SkipGeminiThoughtSignaturePlugin _ => SignatureStripping
  | WebSearchPlugin _ => WebSearch
  | SearchOrchestrationPlugin _ _ => SearchOrchestration
  | PromptToolUsePlugin _ => PromptToolUse
  end.

(** Modelled from the spec: the [name] field of a plugin is set inside the
    plugin modules, which are missing here.  The names are the ones the
    selection table of the specification uses for the twelve plugins. *)
Definition kind_name (k : PluginKind) : string :=
  match k with
  | Telemetry => "telemetry"
  | ReasoningExtraction => "reasoning-extraction"
  | SimulateStreaming => "simulate-streaming"
  | CacheControl => "cache-control"
  | ReasoningRedaction => "reasoning-redaction"
  | ThinkSuppression => "think-suppression"
  | ThinkingTokenControl => "thinking-token-control"
  | ImageGenerationRedirect => "image-generation-redirect"
  | SignatureStripping => "signature-stripping"
  | WebSearch => "web-search"
  | SearchOrchestration => "search-orchestration"
  | PromptToolUse => "prompt-tool-use"
  end.

(** [p.name] *)
Definition name (p : AiPlugin) : string := kind_name (kind_of p).

(** The rows of the selection table, in table order. *)
Definition table_order : list PluginKind :=
  [ Telemetry; ReasoningExtraction; SimulateStreaming; CacheControl;
    ReasoningRedaction; ThinkSuppression; ThinkingTokenControl;
    ImageGenerationRedirect; SignatureStripping; WebSearch;
    SearchOrchestration; PromptToolUse ].

Definition PluginKind_eqb (a b : PluginKind) : bool :=
  match a, b with
  | Telemetry, Telemetry
  | ReasoningExtraction, ReasoningExtraction
  | SimulateStreaming, SimulateStreaming
  | CacheControl, CacheControl
  | ReasoningRedaction, ReasoningRedaction
  | ThinkSuppression, ThinkSuppression
  | ThinkingTokenControl, ThinkingTokenControl
  | ImageGenerationRedirect, ImageGenerationRedirect
  | SignatureStripping, SignatureStripping
  | WebSearch, WebSearch
  | SearchOrchestration, SearchOrchestration
  | PromptToolUse, PromptToolUse => true
  | _, _ => false
  end.

(** ** JavaScript primitives used by the function *)

(** [String.prototype.toLowerCase] on strings of ASCII characters: the
    letters A to Z are lower-cased and every other character is kept.  JS
    also lower-cases letters outside ASCII (its Unicode tables are no part
    of this development), so [toLowerCase] stands for the JS method on the
    strings that [ascii_only] accepts, and a statement about the lower-cased
    text itself is made for those. *)
Definition lower_ascii (c : ascii) : ascii :=
  let n := nat_of_ascii c in
  if (65 <=? n)%nat && (n <=? 90)%nat then ascii_of_nat (n + 32) else c.

Fixpoint toLowerCase (s : string) : string :=
  match s with
  | EmptyString => EmptyString
  | String c r => String (lower_ascii c) (toLowerCase r)
  end.

(** The strings all of whose characters are ASCII. *)
Fixpoint ascii_only (s : string) : bool :=
  match s with
  | EmptyString => true
  | String c r => (nat_of_ascii c <? 128)%nat && ascii_only r
  end.

(** Truthiness of a value of type [string | undefined]. *)
Definition truthy_string (s : option string) : bool :=
  match s with
  | Some t => negb (t =? "")
  | None => false
  end.

(** Truthiness of a JS number: every number but [0], [-0] and [NaN]. *)
Definition truthy_number (x : spec_float) : bool :=
  match x with
  | S754_zero _ => false
  | S754_nan => false
  | S754_infinity _ => true
  | S754_finite _ _ _ => true
  end.

(** Truthiness of [provider.anthropicCacheControl?.tokenThreshold]. *)
Definition truthy_threshold (c : option AnthropicCacheControl) : bool :=
  match c with
  | Some cc => truthy_number (tokenThreshold cc)
  | None => false
  end.

(** Truthiness of an optional object. *)
Definition truthy_object {A : Type} (o : option A) : bool :=
  match o with
  | Some _ => true
  | None => false
  end.

(** [config.mcpTools && config.mcpTools.length > 0] *)
Definition has_mcp_tools (l : option (list MCPTool)) : bool :=
  match l with
  | Some ts => (0 <? length ts)%nat
  | None => false
  end.

(** [config.topicId || ''] *)
Definition topicId_or_empty (s : option string) : string :=
  match s with
  | Some t => if t =? "" then "" else t
  | None => ""
  end.

(** [config.assistant?.settings?.reasoning_effort !== undefined] *)
Definition reasoning_effort_defined (a : option Assistant) : bool :=
  match a with
  | Some a' =>
      match settings a' with
      | Some s => truthy_object (reasoning_effort s)
      | None => false
      end
  | None => false
  end.

(** [plugins.push(p)] *)
Definition push (plugins : list AiPlugin) (p : AiPlugin) : list AiPlugin :=
  plugins ++ [p].

(** ** The imported functions *)

(** One constructor per imported function that [buildPlugins] calls, with
    the arguments of the call. *)
Inductive ExtCall : Type :=
| getEnableDeveloperMode
| getReasoningTagName (modelId : string)
| isOllamaProvider (p : Provider)
| isSupportedThinkingTokenQwenModel (m : Model)
| isSupportEnableThinkingProvider (p : Provider)
| isOpenRouterGeminiGenerateImageModel (m : Model) (p : Provider)
| isGemini3Model (m : Model)
| getAiSdkProviderId (p : Provider)
| createTelemetryPlugin (opts : TelemetryOptions)
| createReasoningExtractionPlugin (tagName : string)
| createSimulateStreamingPlugin
| createAnthropicCachePlugin
| createOpenrouterReasoningPlugin
| createNoThinkPlugin
| createQwenThinkingPlugin (enableThinking : bool)
| createOpenrouterGenerateImagePlugin
| createSkipGeminiThoughtSignaturePlugin (aiSdkId : string)
| webSearchPlugin (cfg : WebSearchPluginConfig)
| searchOrchestrationPlugin (a : option Assistant) (topic : string)
| createPromptToolUsePlugin (opts : PromptToolUseOptions)
| logger_debug (msg : string) (payload : list string).

(** The type of the value a call returns. *)
Definition result (c : ExtCall) : Type :=
  match c with
  | getEnableDeveloperMode => bool
  | getReasoningTagName _ => string
  | isOllamaProvider _ => bool
  | isSupportedThinkingTokenQwenModel _ => bool
  | isSupportEnableThinkingProvider _ => bool
  | isOpenRouterGeminiGenerateImageModel _ _ => bool
  | isGemini3Model _ => bool
  | getAiSdkProviderId _ => string
  | logger_debug _ _ => unit
  | _ => AiPlugin
  end.

(** The external collaborators, by the role the specification gives them
    (section 6: plugin factories, capability predicates, the
    provider-identifier resolver, the diagnostic logger).  The tag-name
    helper is counted with the resolver, and the developer-mode getter,
    which returns a boolean, with the predicates. *)
Inductive Collaborator : Type :=
| PluginFactory
| CapabilityPredicate
| ParameterHelper
| DiagnosticLogger.

Definition collaborator (c : ExtCall) : Collaborator :=
  match c with
  | getEnableDeveloperMode => CapabilityPredicate
  | isOllamaProvider _ => CapabilityPredicate
  | isSupportedThinkingTokenQwenModel _ => CapabilityPredicate
  | isSupportEnableThinkingProvider _ => CapabilityPredicate
  | isOpenRouterGeminiGenerateImageModel _ _ => CapabilityPredicate
  | isGemini3Model _ => CapabilityPredicate
  | getReasoningTagName _ => ParameterHelper
  | getAiSdkProviderId _ => ParameterHelper
  | logger_debug _ _ => DiagnosticLogger
  | _ => PluginFactory
  end.

(** ** Programs over the imported functions *)

Inductive Prog (A : Type) : Type :=
| Ret (a : A)
| Call (c : ExtCall) (k : result c -> Prog A).

Arguments Ret {A} a.
Arguments Call {A} c k.

Fixpoint bind {A B : Type} (p : Prog A) (f : A -> Prog B) : Prog B :=
  match p with
  | Ret a => f a
  | Call c k => Call c (fun x => bind (k x) f)
  end.

Definition call (c : ExtCall) : Prog (result c) := Call c (fun x => Ret x).

Notation "x <- p ;; q" := (bind p (fun x => q))
  (at level 61, p at next level, right associativity).

(** [a && b], where [b] is only evaluated when [a] is true. *)
Definition andP (a b : Prog bool) : Prog bool :=
  x <- a ;; if x then b else Ret false.

(** [!a] *)
Definition notP (a : Prog bool) : Prog bool :=
  x <- a ;; Ret (negb x).

(** [SystemProviderIds] is declared in [@renderer/types], which is not part
    of this file; its [openrouter] member, the provider id that rule 4
    compares with, is a parameter of the development. *)
Variable SystemProviderIds_openrouter : string.

(** ** buildPlugins *)

(** The local array [plugins] is threaded through the statements; every
    statement rebinds it, as the source mutates it. *)
Definition buildPlugins (ctx : BuildPluginsContext) : Prog (list AiPlugin) :=
  let provider := provider ctx in
  let model := model ctx in
  let config := config ctx in
  let plugins : list AiPlugin := [] in
  (* 0. telemetry *)
  plugins <-
    (match topicId config with
     | Some topic =>
         c <- andP (Ret (truthy_string (Some topic))) (call getEnableDeveloperMode) ;;
         if c then
           p <- call (createTelemetryPlugin
                        {| tel_enabled := true;
                           tel_topicId := topic;
                           tel_assistant := assistant config |}) ;;
           Ret (push plugins p)
         else Ret plugins
     | None => Ret plugins (* undefined && ... is undefined *)
     end) ;;
  (* 0.1 reasoning extraction for OpenAI/Azure providers *)
  let providerType := provider_type provider in
  plugins <-
    (if (providerType =? "openai") || (providerType =? "azure-openai") then
       tagName <- call (getReasoningTagName (toLowerCase (model_id model))) ;;
       p <- call (createReasoningExtractionPlugin tagName) ;;
       Ret (push plugins p)
     else Ret plugins) ;;
  (* 0.2 simulate streaming for non-streaming requests *)
  plugins <-
    (if negb (streamOutput config) then
       p <- call createSimulateStreamingPlugin ;;
       Ret (push plugins p)
     else Ret plugins) ;;
  plugins <-
    (if (providerType =? "anthropic") && truthy_threshold (anthropicCacheControl provider) then
       p <- call createAnthropicCachePlugin ;;
       Ret (push plugins p)
     else Ret plugins) ;;
  (* 0.3 OpenRouter reasoning redaction *)
  plugins <-
    (if provider_id provider =? SystemProviderIds_openrouter then
       p <- call createOpenrouterReasoningPlugin ;;
       Ret (push plugins p)
     else Ret plugins) ;;
  (* 0.4 OVMS no-think for MCP tools *)
  plugins <-
    (if (provider_id provider =? "ovms") && has_mcp_tools (mcpTools config) then
       p <- call createNoThinkPlugin ;;
       Ret (push plugins p)
     else Ret plugins) ;;
  (* 0.5 Qwen thinking control for providers without enable_thinking support *)
  plugins <-
    (c <- andP (andP (notP (call (isOllamaProvider provider)))
                     (call (isSupportedThinkingTokenQwenModel model)))
               (notP (call (isSupportEnableThinkingProvider provider))) ;;
     if c then
       let enableThinking := reasoning_effort_defined (assistant config) in
       p <- call (createQwenThinkingPlugin enableThinking) ;;
       Ret (push plugins p)
     else Ret plugins) ;;
  (* 0.6 OpenRouter Gemini image generation *)
  plugins <-
    (c <- call (isOpenRouterGeminiGenerateImageModel model provider) ;;
     if c then
       p <- call createOpenrouterGenerateImagePlugin ;;
       Ret (push plugins p)
     else Ret plugins) ;;
  (* 0.7 skip Gemini3 thought signature *)
  plugins <-
    (c <- call (isGemini3Model model) ;;
     if c then
       aiSdkId <- call (getAiSdkProviderId provider) ;;
       p <- call (createSkipGeminiThoughtSignaturePlugin aiSdkId) ;;
       Ret (push plugins p)
     else Ret plugins) ;;
  (* 1. built-in web search *)
  plugins <-
    (match (if enableWebSearch config then webSearchPluginConfig config else None) with
     | Some cfg =>
         p <- call (webSearchPlugin cfg) ;;
         Ret (push plugins p)
     | None => Ret plugins
     end) ;;
  (* 2. search orchestration when tool use is supported *)
  plugins <-
    (if isSupportedToolUse config || isPromptToolUse config then
       p <- call (searchOrchestrationPlugin (assistant config)
                                            (topicId_or_empty (topicId config))) ;;
       Ret (push plugins p)
     else Ret plugins) ;;
  (* 4. prompt tool use *)
  plugins <-
    (if isPromptToolUse config then
       p <- call (createPromptToolUsePlugin
                    {| ptu_enabled := true; ptu_mcpMode := mcpMode config |}) ;;
       Ret (push plugins p)
     else Ret plugins) ;;
  _ <- call (logger_debug "Final plugin list:" (map name plugins)) ;;
  Ret plugins.


(** ** Pure collaborators *)

(** The capability predicates and parameter helpers, as functions of their
    arguments. *)
Record Capabilities : Type := {
  reasoningTagName : string -> string;
  ollamaProvider : Provider -> bool;
  thinkingTokenQwenModel : Model -> bool;
  enableThinkingProvider : Provider -> bool;
  openRouterGeminiGenerateImageModel : Model -> Provider -> bool;
  gemini3Model : Model -> bool;
  aiSdkProviderId : Provider -> string
}.

(** Modelled from the spec: [getEnableDeveloperMode] is imported from
    [hooks/useSettings], which is missing here.  It is called without an
    argument, so what it returns ("developer-mode topic tracing enabled") is
    read from state outside the request context: the settings of the
    application.  The other piece of module-level state is the logger
    [loggerService.withContext('PluginBuilder')], kept as the list of the
    lines it was given. *)
Record World : Type := {
  enableDeveloperMode : bool;
  logged : list (string * list string)
}.

Variable env : Capabilities.

(** What a call returns and what it does to the state outside the
    function.  A factory returns the instance that records its arguments. *)
Definition handle (c : ExtCall) (w : World) : result c * World :=
  match c return result c * World with
  | getEnableDeveloperMode => (enableDeveloperMode w, w)
  | getReasoningTagName i => (reasoningTagName env i, w)
  | isOllamaProvider p => (ollamaProvider env p, w)
  | isSupportedThinkingTokenQwenModel m => (thinkingTokenQwenModel env m, w)
  | isSupportEnableThinkingProvider p => (enableThinkingProvider env p, w)
  | isOpenRouterGeminiGenerateImageModel m p =>
      (openRouterGeminiGenerateImageModel env m p, w)
  | isGemini3Model m => (gemini3Model env m, w)
  | getAiSdkProviderId p => (aiSdkProviderId env p, w)
  | createTelemetryPlugin o => (TelemetryPlugin o, w)
  | createReasoningExtractionPlugin t => (ReasoningExtractionPlugin t, w)
  | createSimulateStreamingPlugin => (SimulateStreamingPlugin, w)
  | createAnthropicCachePlugin => (AnthropicCachePlugin, w)
  | createOpenrouterReasoningPlugin => (OpenrouterReasoningPlugin, w)
  | createNoThinkPlugin => (NoThinkPlugin, w)
  | createQwenThinkingPlugin b => (QwenThinkingPlugin b, w)
  | createOpenrouterGenerateImagePlugin => (OpenrouterGenerateImagePlugin, w)
  | createSkipGeminiThoughtSignaturePlugin i =>
      (SkipGeminiThoughtSignaturePlugin i, w)
  | webSearchPlugin cfg => (WebSearchPlugin cfg, w)
  | searchOrchestrationPlugin a t => (SearchOrchestrationPlugin a t, w)
  | createPromptToolUsePlugin o => (PromptToolUsePlugin o, w)
  | logger_debug msg payload =>
      (tt, {| enableDeveloperMode := enableDeveloperMode w;
              logged := logged w ++ [(msg, payload)] |})
  end.

Fixpoint run {A : Type} (p : Prog A) (w : World) : A * World :=
  match p with
  | Ret a => (a, w)
  | Call c k => let (x, w') := handle c w in run (k x) w'
  end.

(** The calls a run makes, in the order it makes them. *)
Fixpoint calls {A : Type} (p : Prog A) (w : World) : list ExtCall :=
  match p with
  | Ret _ => []
  | Call c k => c :: (let (x, w') := handle c w in calls (k x) w')
  end.

(** [select(context)]: the array [buildPlugins] returns. *)
Definition select (w : World) (ctx : BuildPluginsContext) : list AiPlugin :=
  fst (run (buildPlugins ctx) w).

Definition names (l : list AiPlugin) : list string := map name l.

(** ** The selection table *)

(** The selection policy as the specification gives it (section 4.1): a
    table of twelve rows, each with a guard and the plugin it adds.  [guard],
    [row] and [table] are this second description; the properties below
    compare it with [buildPlugins].

    The guard of each row, read as the condition on the context, the
    developer-mode setting and the capability predicates. *)
Definition guard (w : World) (ctx : BuildPluginsContext) (k : PluginKind) : bool :=
  let p := provider ctx in
  let m := model ctx in
  let c := config ctx in
  match k with
  | Telemetry => truthy_string (topicId c) && enableDeveloperMode w
  | ReasoningExtraction =>
      (provider_type p =? "openai") || (provider_type p =? "azure-openai")
  | SimulateStreaming => negb (streamOutput c)
  | CacheControl =>
      (provider_type p =? "anthropic") && truthy_threshold (anthropicCacheControl p)
  | ReasoningRedaction => provider_id p =? SystemProviderIds_openrouter
  | ThinkSuppression => (provider_id p =? "ovms") && has_mcp_tools (mcpTools c)
  | ThinkingTokenControl =>
      negb (ollamaProvider env p) && thinkingTokenQwenModel env m
      && negb (enableThinkingProvider env p)
  | ImageGenerationRedirect => openRouterGeminiGenerateImageModel env m p
  | SignatureStripping => gemini3Model env m
  | WebSearch => enableWebSearch c && truthy_object (webSearchPluginConfig c)
  | SearchOrchestration => isSupportedToolUse c || isPromptToolUse c
  | PromptToolUse => isPromptToolUse c
  end.

(** The plugin of each row with the parameters the row gives it; [None]
    when the row adds nothing. *)
Definition row (w : World) (ctx : BuildPluginsContext) (k : PluginKind)
  : option AiPlugin :=
  let p := provider ctx in
  let m := model ctx in
  let c := config ctx in
  if guard w ctx k then
    match k with
    | Telemetry =>
        match topicId c with
        | Some t => Some (TelemetryPlugin {| tel_enabled := true;
                                             tel_topicId := t;
                                             tel_assistant := assistant c |})
        | None => None
        end
    | ReasoningExtraction =>
        Some (ReasoningExtractionPlugin
                (reasoningTagName env (toLowerCase (model_id m))))
    | SimulateStreaming => Some SimulateStreamingPlugin
    | CacheControl => Some AnthropicCachePlugin
    | ReasoningRedaction => Some OpenrouterReasoningPlugin
    | ThinkSuppression => Some NoThinkPlugin
    | ThinkingTokenControl =>
        Some (QwenThinkingPlugin (reasoning_effort_defined (assistant c)))
    | ImageGenerationRedirect => Some OpenrouterGenerateImagePlugin
    | SignatureStripping =>
        Some (SkipGeminiThoughtSignaturePlugin (aiSdkProviderId env p))
    | WebSearch =>
        match webSearchPluginConfig c with
        | Some cfg => Some (WebSearchPlugin cfg)
        | None => None
        end
    | SearchOrchestration =>
        Some (SearchOrchestrationPlugin (assistant c) (topicId_or_empty (topicId c)))
    | PromptToolUse =>
        Some (PromptToolUsePlugin {| ptu_enabled := true; ptu_mcpMode := mcpMode c |})
    end
  else None.

Definition opt_list {A : Type} (o : option A) : list A :=
  match o with
  | Some a => [a]
  | None => []
  end.

(** The table read from top to bottom. *)
Definition table (w : World) (ctx : BuildPluginsContext) : list AiPlugin :=
  flat_map (fun k => opt_list (row w ctx k)) table_order.

(** ** Collaborators that may throw *)

Variable Err : Type.

(** A call either returns a value or throws. *)
Definition Handler : Type := forall c : ExtCall, Err + result c.

(** A throw of a collaborator ends the run: there is no [try] in the
    function. *)
Fixpoint runE {A : Type} (h : Handler) (p : Prog A) : Err + A :=
  match p with
  | Ret a => inr a
  | Call c k =>
      match h c with
      | inl e => inl e
      | inr x => runE h (k x)
      end
  end.

(** The calls that occur in a program, whatever the collaborators return. *)
Fixpoint may_call {A : Type} (p : Prog A) (c : ExtCall) : Prop :=
  match p with
  | Ret _ => False
  | Call c' k => c = c' \/ exists x, may_call (k x) c
  end.

(** The call sites of [buildPlugins], each with the conditions on the
    context under which the function reaches it. *)
Inductive selector_call (ctx : BuildPluginsContext) : ExtCall -> Prop :=
| sc_developer_mode :
    truthy_string (topicId (config ctx)) = true ->
    selector_call ctx getEnableDeveloperMode
| sc_telemetry : forall t,
    topicId (config ctx) = Some t ->
    selector_call ctx
      (createTelemetryPlugin {| tel_enabled := true; tel_topicId := t;
                                tel_assistant := assistant (config ctx) |})
| sc_tag_name :
    (provider_type (provider ctx) =? "openai")
    || (provider_type (provider ctx) =? "azure-openai") = true ->
    selector_call ctx (getReasoningTagName (toLowerCase (model_id (model ctx))))
| sc_reasoning_extraction : forall tagName,
    (provider_type (provider ctx) =? "openai")
    || (provider_type (provider ctx) =? "azure-openai") = true ->
    selector_call ctx (createReasoningExtractionPlugin tagName)
| sc_simulate_streaming :
    streamOutput (config ctx) = false ->
    selector_call ctx createSimulateStreamingPlugin
| sc_anthropic_cache :
    (provider_type (provider ctx) =? "anthropic")
    && truthy_threshold (anthropicCacheControl (provider ctx)) = true ->
    selector_call ctx createAnthropicCachePlugin
| sc_openrouter_reasoning :
    (provider_id (provider ctx) =? SystemProviderIds_openrouter) = true ->
    selector_call ctx createOpenrouterReasoningPlugin
| sc_no_think :
    (provider_id (provider ctx) =? "ovms")
    && has_mcp_tools (mcpTools (config ctx)) = true ->
    selector_call ctx createNoThinkPlugin
| sc_ollama : selector_call ctx (isOllamaProvider (provider ctx))
| sc_qwen_model : selector_call ctx (isSupportedThinkingTokenQwenModel (model ctx))
| sc_enable_thinking :
    selector_call ctx (isSupportEnableThinkingProvider (provider ctx))
| sc_qwen_thinking :
    selector_call ctx
      (createQwenThinkingPlugin (reasoning_effort_defined (assistant (config ctx))))
| sc_image_model :
    selector_call ctx
      (isOpenRouterGeminiGenerateImageModel (model ctx) (provider ctx))
| sc_generate_image : selector_call ctx createOpenrouterGenerateImagePlugin
| sc_gemini3 : selector_call ctx (isGemini3Model (model ctx))
| sc_provider_id : selector_call ctx (getAiSdkProviderId (provider ctx))
| sc_skip_signature : forall aiSdkId,
    selector_call ctx (createSkipGeminiThoughtSignaturePlugin aiSdkId)
| sc_web_search : forall cfg,
    enableWebSearch (config ctx) = true ->
    webSearchPluginConfig (config ctx) = Some cfg ->
    selector_call ctx (webSearchPlugin cfg)
| sc_search_orchestration :
    isSupportedToolUse (config ctx) || isPromptToolUse (config ctx) = true ->
    selector_call ctx
      (searchOrchestrationPlugin (assistant (config ctx))
                                 (topicId_or_empty (topicId (config ctx))))
| sc_prompt_tool_use :
    isPromptToolUse (config ctx) = true ->
    selector_call ctx
      (createPromptToolUsePlugin {| ptu_enabled := true;
                                    ptu_mcpMode := mcpMode (config ctx) |})
| sc_logger : forall payload,
    selector_call ctx (logger_debug "Final plugin list:" payload).

End PluginBuilder.

(** The position of a row in the table. *)
Definition rank (k : PluginKind) : nat :=
  match k with
  | Telemetry => 0
  | ReasoningExtraction => 1
  | SimulateStreaming => 2
  | CacheControl => 3
  | ReasoningRedaction => 4
  | ThinkSuppression => 5
  | ThinkingTokenControl => 6
  | ImageGenerationRedirect => 7
  | SignatureStripping => 8
  | WebSearch => 9
  | SearchOrchestration => 10
  | PromptToolUse => 11
  end.

(** ** Concrete requests *)

(** The abstract parts of the imported types, left empty. *)
Definition unit_types : RendererTypes :=
  {| ProviderRest := unit; ModelRest := unit; AssistantRest := unit;
     AssistantSettingsRest := unit; ReasoningEffort := string;
     MCPTool := string; Message := unit; OnChunk := unit;
     WebSearchPluginConfig := unit |}.

Module Requests.

#[local] Existing Instance unit_types.

Definition openrouter_id : string := "openrouter".

(** Collaborators for which no model and no provider has a special
    capability. *)
Definition no_capabilities : @Capabilities unit_types :=
  {| reasoningTagName := fun _ => "think";
     ollamaProvider := fun _ => false;
     thinkingTokenQwenModel := fun _ => false;
     enableThinkingProvider := fun _ => false;
     openRouterGeminiGenerateImageModel := fun _ _ => false;
     gemini3Model := fun _ => false;
     aiSdkProviderId := fun p => provider_id p |}.

(** Collaborators that know the Qwen and Gemini 3 families by model id. *)
Definition family_capabilities : @Capabilities unit_types :=
  {| reasoningTagName := fun _ => "think";
     ollamaProvider := fun p => provider_id p =? "ollama";
     thinkingTokenQwenModel := fun m => model_id m =? "qwen3-8b";
     enableThinkingProvider := fun p => provider_id p =? "dashscope";
     openRouterGeminiGenerateImageModel := fun _ _ => false;
     gemini3Model := fun m => model_id m =? "gemini-3-pro";
     aiSdkProviderId := fun p => provider_id p |}.

Definition developer_mode_on : World :=
  {| enableDeveloperMode := true; logged := [] |}.

Definition developer_mode_off : World :=
  {| enableDeveloperMode := false; logged := [] |}.

Definition a_provider (id type : string) : @Provider unit_types :=
  {| provider_id := id; provider_type := type;
     anthropicCacheControl := None; provider_rest := tt |}.

Definition a_model (id : string) : @Model unit_types :=
  {| model_id := id; model_rest := tt |}.

Definition an_assistant (effort : option string) : @Assistant unit_types :=
  {| settings := Some {| reasoning_effort := effort; settings_rest := tt |};
     assistant_rest := tt |}.

Definition a_config (stream prompt supported : bool) (topic : option string)
                    (a : option (@Assistant unit_types)) : @Config unit_types :=
  {| streamOutput := stream; onChunk := None; assistant := a;
     enableReasoning := false; isPromptToolUse := prompt;
     isSupportedToolUse := supported; isImageGenerationEndpoint := false;
     enableWebSearch := false; enableGenerateImage := false;
     enableUrlContext := false; mcpTools := None; uiMessages := None;
     webSearchPluginConfig := None; knowledgeRecognition := None;
     mcpMode := None; topicId := topic |}.

(** The example of the specification: an OpenAI provider, gpt-4o, no
    streaming, no tools, no web search. *)
Definition gpt4o_request : @BuildPluginsContext unit_types :=
  {| provider := a_provider "openai" "openai";
     model := a_model "gpt-4o";
     config := a_config false false false None None |}.

(** The same request inside a topic. *)
Definition traced_request : @BuildPluginsContext unit_types :=
  {| provider := a_provider "openai" "openai";
     model := a_model "gpt-4o";
     config := a_config false false false (Some "topic-1") None |}.

(** A streamed request to a provider no rule knows. *)
Definition quiet_request : @BuildPluginsContext unit_types :=
  {| provider := a_provider "gemini" "gemini";
     model := a_model "gemini-2.5-flash";
     config := a_config true false false None None |}.

(** A streamed request with both kinds of tool use. *)
Definition tools_request : @BuildPluginsContext unit_types :=
  {| provider := a_provider "gemini" "gemini";
     model := a_model "gemini-2.5-flash";
     config := a_config true true true None None |}.

(** A streamed request to a Qwen model with a reasoning effort set. *)
Definition qwen_request : @BuildPluginsContext unit_types :=
  {| provider := a_provider "silicon" "openai-compatible";
     model := a_model "qwen3-8b";
     config := a_config true false false None (Some (an_assistant (Some "high"))) |}.

(** Collaborators that return as [no_capabilities] does. *)
Definition returning : @Handler unit_types string :=
  fun c => inr (fst (handle no_capabilities c developer_mode_off)).

(** The same, except that the factory of the streaming plugin throws. *)
Definition throwing : @Handler unit_types string :=
  fun c =>
    match c return string + result c with
    | createSimulateStreamingPlugin => inl "simulateStreaming failed"
    | c' => returning c'
    end.

(** Collaborators among which only the provider-id resolver throws; every
    model is taken for a Gemini 3 model. *)
Definition resolver_throws : @Handler unit_types string :=
  fun c =>
    match c return string + result c with
    | getAiSdkProviderId _ => inl "unknown provider"
    | isGemini3Model _ => inr true
    | c' => returning c'
    end.

End Requests.

(** ** The calls of a run *)

Section CallTrace.

Context {T : RendererTypes}.
Variable openrouter : string.
Variable env : Capabilities.

(** The calls that the statement of each row makes when the collaborators
    are pure, in the order the statement makes them: the operands of [&&]
    from left to right, up to the first false one, then the parameter
    helper and the factory when the guard held. *)
Definition statement_calls (w : World) (ctx : BuildPluginsContext) (k : PluginKind)
  : list ExtCall :=
  let p := provider ctx in
  let m := model ctx in
  let c := config ctx in
  match k with
  | Telemetry =>
      match topicId c with
      | Some t =>
          if truthy_string (Some t) then
            getEnableDeveloperMode ::
            (if enableDeveloperMode w then
               [ createTelemetryPlugin {| tel_enabled := true; tel_topicId := t;
                                          tel_assistant := assistant c |} ]
             else [])
          else []
      | None => []
      end
  | ReasoningExtraction =>
      if (provider_type p =? "openai") || (provider_type p =? "azure-openai") then
        [ getReasoningTagName (toLowerCase (model_id m));
          createReasoningExtractionPlugin
            (reasoningTagName env (toLowerCase (model_id m))) ]
      else []
  | SimulateStreaming =>
      if negb (streamOutput c) then [ createSimulateStreamingPlugin ] else []
  | CacheControl =>
      if (provider_type p =? "anthropic") && truthy_threshold (anthropicCacheControl p)
      then [ createAnthropicCachePlugin ] else []
  | ReasoningRedaction =>
      if provider_id p =? openrouter then [ createOpenrouterReasoningPlugin ] else []
  | ThinkSuppression =>
      if (provider_id p =? "ovms") && has_mcp_tools (mcpTools c)
      then [ createNoThinkPlugin ] else []
  | ThinkingTokenControl =>
      isOllamaProvider p ::
      (if ollamaProvider env p then []
       else
         isSupportedThinkingTokenQwenModel m ::
         (if thinkingTokenQwenModel env m then
            isSupportEnableThinkingProvider p ::
            (if enableThinkingProvider env p then []
             else [ createQwenThinkingPlugin
                      (reasoning_effort_defined (assistant c)) ])
          else []))
  | ImageGenerationRedirect =>
      isOpenRouterGeminiGenerateImageModel m p ::
      (if openRouterGeminiGenerateImageModel env m p
       then [ createOpenrouterGenerateImagePlugin ] else [])
  | SignatureStripping =>
      isGemini3Model m ::
      (if gemini3Model env m then
         [ getAiSdkProviderId p;
           createSkipGeminiThoughtSignaturePlugin (aiSdkProviderId env p) ]
       else [])
  | WebSearch =>
      match (if enableWebSearch c then webSearchPluginConfig c else None) with
      | Some cfg => [ webSearchPlugin cfg ]
      | None => []
      end
  | SearchOrchestration =>
      if isSupportedToolUse c || isPromptToolUse c then
        [ searchOrchestrationPlugin (assistant c) (topicId_or_empty (topicId c)) ]
      else []
  | PromptToolUse =>
      if isPromptToolUse c then
        [ createPromptToolUsePlugin {| ptu_enabled := true; ptu_mcpMode := mcpMode c |} ]
      else []
  end.

(** The instance a factory call makes; [None] for a call of a predicate, of
    a helper or of the logger. *)
Definition made (c : ExtCall) : option AiPlugin :=
  match c with
  | createTelemetryPlugin o => Some (TelemetryPlugin o)
  | createReasoningExtractionPlugin t => Some (ReasoningExtractionPlugin t)
  | createSimulateStreamingPlugin => Some SimulateStreamingPlugin
  | createAnthropicCachePlugin => Some AnthropicCachePlugin
  | createOpenrouterReasoningPlugin => Some OpenrouterReasoningPlugin
  | createNoThinkPlugin => Some NoThinkPlugin
  | createQwenThinkingPlugin b => Some (QwenThinkingPlugin b)
  | createOpenrouterGenerateImagePlugin => Some OpenrouterGenerateImagePlugin
  | createSkipGeminiThoughtSignaturePlugin i => Some (SkipGeminiThoughtSignaturePlugin i)
  | webSearchPlugin cfg => Some (WebSearchPlugin cfg)
  | searchOrchestrationPlugin a t => Some (SearchOrchestrationPlugin a t)
  | createPromptToolUsePlugin o => Some (PromptToolUsePlugin o)
  | _ => None
  end.

(** The instances made by the factory calls of a list of calls, in order. *)
Definition built (cs : list ExtCall) : list AiPlugin :=
  flat_map (fun c => opt_list (made c)) cs.

Variable Err : Type.

(** The error of the first call of a list that throws. *)
Fixpoint first_error (h : Handler Err) (cs : list ExtCall) : option Err :=
  match cs with
  | [] => None
  | c :: r =>
      match h c with
      | inl e => Some e
      | inr _ => first_error h r
      end
  end.

(** The calls a run with collaborators that may throw makes, up to and
    including the one that throws. *)
Fixpoint callsE {A : Type} (h : Handler Err) (p : Prog A) : list ExtCall :=
  match p with
  | Ret _ => []
  | Call c k =>
      c :: match h c with
           | inl _ => []
           | inr x => callsE h (k x)
           end
  end.

(** A list of calls cut after its first call that throws. *)
Fixpoint upto_error (h : Handler Err) (cs : list ExtCall) : list ExtCall :=
  match cs with
  | [] => []
  | c :: r =>
      c :: match h c with
           | inl _ => []
           | inr _ => upto_error h r
           end
  end.

End CallTrace.

(** ** The function on a context that was not type-checked *)

(** The declared types are erased when the function runs, and the function
    validates nothing: what it receives is what the caller passed.  This
    section embeds [buildPlugins] a second time, for such a context: the
    three fields of the argument may be missing, [model.id] may be something
    else than a string, and a factory may return [undefined].  Reading a
    property of a missing value throws a [TypeError], which is the
    function's own failure.  The argument itself is taken to be an object,
    and the remaining fields are read with operators that do not throw
    (comparison, truthiness, [?.]), so they are kept as declared.  On a
    context of the declared types the two embeddings agree. *)

Section Untyped.

Context {T : RendererTypes}.
Variable SystemProviderIds_openrouter : string.

(** [model]: [js_id] is [None] when [model.id] is not a string. *)
Record JsModel : Type := {
  js_id : option string;
  js_model_rest : ModelRest
}.

(** The argument of [buildPlugins]: a field is [None] when it is
    [undefined] or [null]. *)
Record JsContext : Type := {
  js_provider : option Provider;
  js_model : option JsModel;
  js_config : option Config
}.

(** The error of reading a property, or calling a method, of a value that
    does not have it. *)
Inductive TypeError : Type :=
| cannot_read (property : string).

(** The imported functions, as [ExtCall], with the model as it arrives. *)
Inductive JsCall : Type :=
| js_getEnableDeveloperMode
| js_getReasoningTagName (modelId : string)
| js_isOllamaProvider (p : Provider)
| js_isSupportedThinkingTokenQwenModel (m : option JsModel)
| js_isSupportEnableThinkingProvider (p : Provider)
| js_isOpenRouterGeminiGenerateImageModel (m : option JsModel) (p : Provider)
| js_isGemini3Model (m : option JsModel)
| js_getAiSdkProviderId (p : Provider)
| js_createTelemetryPlugin (opts : TelemetryOptions)
| js_createReasoningExtractionPlugin (tagName : string)
| js_createSimulateStreamingPlugin
| js_createAnthropicCachePlugin
| js_createOpenrouterReasoningPlugin
| js_createNoThinkPlugin
| js_createQwenThinkingPlugin (enableThinking : bool)
| js_createOpenrouterGenerateImagePlugin
| js_createSkipGeminiThoughtSignaturePlugin (aiSdkId : string)
| js_webSearchPlugin (cfg : WebSearchPluginConfig)
| js_searchOrchestrationPlugin (a : option Assistant) (topic : string)
| js_createPromptToolUsePlugin (opts : PromptToolUseOptions)
| js_logger_debug (msg : string) (payload : list string).

(** The type of the value a call returns; what a factory returns is [None]
    when it is [undefined]. *)
Definition js_result (c : JsCall) : Type :=
  match c with
  | js_getEnableDeveloperMode => bool
  | js_getReasoningTagName _ => string
  | js_isOllamaProvider _ => bool
  | js_isSupportedThinkingTokenQwenModel _ => bool
  | js_isSupportEnableThinkingProvider _ => bool
  | js_isOpenRouterGeminiGenerateImageModel _ _ => bool
  | js_isGemini3Model _ => bool
  | js_getAiSdkProviderId _ => string
  | js_logger_debug _ _ => unit
  | _ => option AiPlugin
  end.

Inductive JsProg (A : Type) : Type :=
| JsRet (a : A)
| JsThrow (e : TypeError)
| JsCallK (c : JsCall) (k : js_result c -> JsProg A).

Arguments JsRet {A} a.
Arguments JsThrow {A} e.
Arguments JsCallK {A} c k.

Fixpoint bindJs {A B : Type} (p : JsProg A) (f : A -> JsProg B) : JsProg B :=
  match p with
  | JsRet a => f a
  | JsThrow e => JsThrow e
  | JsCallK c k => JsCallK c (fun x => bindJs (k x) f)
  end.

Definition callJs (c : JsCall) : JsProg (js_result c) := JsCallK c (fun x => JsRet x).

Notation "x <- p ;; q" := (bindJs p (fun x => q))
  (at level 61, p at next level, right associativity).

Definition andJs (a b : JsProg bool) : JsProg bool :=
  x <- a ;; if x then b else JsRet false.

Definition notJs (a : JsProg bool) : JsProg bool :=
  x <- a ;; JsRet (negb x).

(** [o.property], for a value [o] that may be missing. *)
Definition read {A : Type} (o : option A) (property : string) : JsProg A :=
  match o with
  | Some a => JsRet a
  | None => JsThrow (cannot_read property)
  end.

(** [plugins.push(p)], where [p] may be [undefined]. *)
Definition pushJs (plugins : list (option AiPlugin)) (p : option AiPlugin)
  : list (option AiPlugin) :=
  plugins ++ [p].

(** [plugins.map((p) => p.name)]: the names from left to right, up to the
    first plugin that is [undefined]. *)
Fixpoint names_of (plugins : list (option AiPlugin)) : TypeError + list string :=
  match plugins with
  | [] => inr []
  | Some p :: r =>
      match names_of r with
      | inr ns => inr (name p :: ns)
      | inl e => inl e
      end
  | None :: _ => inl (cannot_read "name")
  end.

Definition buildPluginsJs (js : JsContext) : JsProg (list (option AiPlugin)) :=
  let plugins : list (option AiPlugin) := [] in
  (* line 45: config.topicId *)
  config <- read (js_config js) "topicId" ;;
  plugins <-
    (match topicId config with
     | Some topic =>
         c <- andJs (JsRet (truthy_string (Some topic)))
                    (callJs js_getEnableDeveloperMode) ;;
         if c then
           p <- callJs (js_createTelemetryPlugin
                          {| tel_enabled := true;
                             tel_topicId := topic;
                             tel_assistant := assistant config |}) ;;
           JsRet (pushJs plugins p)
         else JsRet plugins
     | None => JsRet plugins
     end) ;;
  (* line 64: provider.type *)
  provider <- read (js_provider js) "type" ;;
  let providerType := provider_type provider in
  plugins <-
    (if (providerType =? "openai") || (providerType =? "azure-openai") then
       (* line 66: model.id.toLowerCase() *)
       model <- read (js_model js) "id" ;;
       id <- read (js_id model) "toLowerCase" ;;
       tagName <- callJs (js_getReasoningTagName (toLowerCase id)) ;;
       p <- callJs (js_createReasoningExtractionPlugin tagName) ;;
       JsRet (pushJs plugins p)
     else JsRet plugins) ;;
  plugins <-
    (if negb (streamOutput config) then
       p <- callJs js_createSimulateStreamingPlugin ;;
       JsRet (pushJs plugins p)
     else JsRet plugins) ;;
  plugins <-
    (if (providerType =? "anthropic") && truthy_threshold (anthropicCacheControl provider) then
       p <- callJs js_createAnthropicCachePlugin ;;
       JsRet (pushJs plugins p)
     else JsRet plugins) ;;
  plugins <-
    (if provider_id provider =? SystemProviderIds_openrouter then
       p <- callJs js_createOpenrouterReasoningPlugin ;;
       JsRet (pushJs plugins p)
     else JsRet plugins) ;;
  plugins <-
    (if (provider_id provider =? "ovms") && has_mcp_tools (mcpTools config) then
       p <- callJs js_createNoThinkPlugin ;;
       JsRet (pushJs plugins p)
     else JsRet plugins) ;;
  plugins <-
    (c <- andJs (andJs (notJs (callJs (js_isOllamaProvider provider)))
                       (callJs (js_isSupportedThinkingTokenQwenModel (js_model js))))
                (notJs (callJs (js_isSupportEnableThinkingProvider provider))) ;;
     if c then
       let enableThinking := reasoning_effort_defined (assistant config) in
       p <- callJs (js_createQwenThinkingPlugin enableThinking) ;;
       JsRet (pushJs plugins p)
     else JsRet plugins) ;;
  plugins <-
    (c <- callJs (js_isOpenRouterGeminiGenerateImageModel (js_model js) provider) ;;
     if c then
       p <- callJs js_createOpenrouterGenerateImagePlugin ;;
       JsRet (pushJs plugins p)
     else JsRet plugins) ;;
  plugins <-
    (c <- callJs (js_isGemini3Model (js_model js)) ;;
     if c then
       aiSdkId <- callJs (js_getAiSdkProviderId provider) ;;
       p <- callJs (js_createSkipGeminiThoughtSignaturePlugin aiSdkId) ;;
       JsRet (pushJs plugins p)
     else JsRet plugins) ;;
  plugins <-
    (match (if enableWebSearch config then webSearchPluginConfig config else None) with
     | Some cfg =>
         p <- callJs (js_webSearchPlugin cfg) ;;
         JsRet (pushJs plugins p)
     | None => JsRet plugins
     end) ;;
  plugins <-
    (if isSupportedToolUse config || isPromptToolUse config then
       p <- callJs (js_searchOrchestrationPlugin (assistant config)
                                                 (topicId_or_empty (topicId config))) ;;
       JsRet (pushJs plugins p)
     else JsRet plugins) ;;
  plugins <-
    (if isPromptToolUse config then
       p <- callJs (js_createPromptToolUsePlugin
                      {| ptu_enabled := true; ptu_mcpMode := mcpMode config |}) ;;
       JsRet (pushJs plugins p)
     else JsRet plugins) ;;
  (* line 140: plugins.map((p) => p.name) *)
  payload <- (match names_of plugins with
              | inr ns => JsRet ns
              | inl e => JsThrow e
              end) ;;
  _ <- callJs (js_logger_debug "Final plugin list:" payload) ;;
  JsRet plugins.

(** How a run ends: with a value, with the error a collaborator threw, or
    with a [TypeError] of the function's own. *)
Inductive Outcome (E A : Type) : Type :=
| Returned (a : A)
| Raised (e : E)
| Failed (t : TypeError).

Arguments Returned {E A} a.
Arguments Raised {E A} e.
Arguments Failed {E A} t.

Variable Err : Type.

Definition JsHandler : Type := forall c : JsCall, Err + js_result c.

Fixpoint runJs {A : Type} (h : JsHandler) (p : JsProg A) : Outcome Err A :=
  match p with
  | JsRet a => Returned a
  | JsThrow t => Failed t
  | JsCallK c k =>
      match h c with
      | inl e => Raised e
      | inr x => runJs h (k x)
      end
  end.

(** What a call of a factory returned; [None] for a call that is not a
    factory call or that threw. *)
Definition factory_value (h : JsHandler) (c : JsCall) : option (option AiPlugin) :=
  let returned (r : Err + option AiPlugin) :=
    match r with
    | inr x => Some x
    | inl _ => None
    end in
  match c with
  | js_createTelemetryPlugin o => returned (h (js_createTelemetryPlugin o))
  | js_createReasoningExtractionPlugin t =>
      returned (h (js_createReasoningExtractionPlugin t))
  | js_createSimulateStreamingPlugin => returned (h js_createSimulateStreamingPlugin)
  | js_createAnthropicCachePlugin => returned (h js_createAnthropicCachePlugin)
  | js_createOpenrouterReasoningPlugin => returned (h js_createOpenrouterReasoningPlugin)
  | js_createNoThinkPlugin => returned (h js_createNoThinkPlugin)
  | js_createQwenThinkingPlugin b => returned (h (js_createQwenThinkingPlugin b))
  | js_createOpenrouterGenerateImagePlugin =>
      returned (h js_createOpenrouterGenerateImagePlugin)
  | js_createSkipGeminiThoughtSignaturePlugin i =>
      returned (h (js_createSkipGeminiThoughtSignaturePlugin i))
  | js_webSearchPlugin cfg => returned (h (js_webSearchPlugin cfg))
  | js_searchOrchestrationPlugin a t => returned (h (js_searchOrchestrationPlugin a t))
  | js_createPromptToolUsePlugin o => returned (h (js_createPromptToolUsePlugin o))
  | _ => None
  end.

(** The calls the function makes for a received context: each imported
    function with the arguments the context gives it.  The argument of the
    tag-name helper is pinned for a model id of ASCII characters only (see
    [toLowerCase]). *)
Definition js_call_site (js : JsContext) (c : JsCall) : Prop :=
  match c with
  | js_getEnableDeveloperMode =>
      exists cfg t, js_config js = Some cfg /\ topicId cfg = Some t
                    /\ truthy_string (Some t) = true
  | js_createTelemetryPlugin o =>
      exists cfg t, js_config js = Some cfg /\ topicId cfg = Some t
                    /\ o = {| tel_enabled := true; tel_topicId := t;
                              tel_assistant := assistant cfg |}
  | js_getReasoningTagName i =>
      exists m id, js_model js = Some m /\ js_id m = Some id
                   /\ (ascii_only id = true -> i = toLowerCase id)
  | js_isOllamaProvider p => js_provider js = Some p
  | js_isSupportEnableThinkingProvider p => js_provider js = Some p
  | js_getAiSdkProviderId p => js_provider js = Some p
  | js_isSupportedThinkingTokenQwenModel m => m = js_model js
  | js_isGemini3Model m => m = js_model js
  | js_isOpenRouterGeminiGenerateImageModel m p =>
      m = js_model js /\ js_provider js = Some p
  | js_createQwenThinkingPlugin b =>
      exists cfg, js_config js = Some cfg
                  /\ b = reasoning_effort_defined (assistant cfg)
  | js_webSearchPlugin wcfg =>
      exists cfg, js_config js = Some cfg /\ enableWebSearch cfg = true
                  /\ webSearchPluginConfig cfg = Some wcfg
  | js_searchOrchestrationPlugin a t =>
      exists cfg, js_config js = Some cfg /\ a = assistant cfg
                  /\ t = topicId_or_empty (topicId cfg)
  | js_createPromptToolUsePlugin o =>
      exists cfg, js_config js = Some cfg
                  /\ o = {| ptu_enabled := true; ptu_mcpMode := mcpMode cfg |}
  | js_logger_debug msg _ => msg = "Final plugin list:"
  | js_createReasoningExtractionPlugin _ => True
  | js_createSimulateStreamingPlugin => True
  | js_createAnthropicCachePlugin => True
  | js_createOpenrouterReasoningPlugin => True
  | js_createNoThinkPlugin => True
  | js_createOpenrouterGenerateImagePlugin => True
  | js_createSkipGeminiThoughtSignaturePlugin _ => True
  end.

(** Every [undefined] element of the array was returned by a factory. *)
Definition from_factories (h : JsHandler) (plugins : list (option AiPlugin)) : Prop :=
  In None plugins -> exists c, factory_value h c = Some None.

(** A context of the declared types, as the function receives it. *)
Definition of_typed (ctx : BuildPluginsContext) : JsContext :=
  {| js_provider := Some (provider ctx);
     js_model := Some {| js_id := Some (model_id (model ctx));
                         js_model_rest := model_rest (model ctx) |};
     js_config := Some (config ctx) |}.

(** The model of the declared type that a received model is, if any. *)
Definition as_model (m : option JsModel) : option Model :=
  match m with
  | Some jm =>
      match js_id jm with
      | Some id => Some {| model_id := id; model_rest := js_model_rest jm |}
      | None => None
      end
  | None => None
  end.

Variable env : Capabilities.

(** The pure collaborators, for a received model.  The capability
    predicates are functions of a well-formed model; for another model
    they are given the answer false. *)
Definition on_model (f : Model -> bool) (m : option JsModel) : bool :=
  match as_model m with
  | Some tm => f tm
  | None => false
  end.

Definition pure_js (w : World) : JsHandler :=
  fun c =>
    match c return Err + js_result c with
    | js_getEnableDeveloperMode => inr (enableDeveloperMode w)
    | js_getReasoningTagName i => inr (reasoningTagName env i)
    | js_isOllamaProvider p => inr (ollamaProvider env p)
    | js_isSupportedThinkingTokenQwenModel m =>
        inr (on_model (thinkingTokenQwenModel env) m)
    | js_isSupportEnableThinkingProvider p => inr (enableThinkingProvider env p)
    | js_isOpenRouterGeminiGenerateImageModel m p =>
        inr (on_model (fun tm => openRouterGeminiGenerateImageModel env tm p) m)
    | js_isGemini3Model m => inr (on_model (gemini3Model env) m)
    | js_getAiSdkProviderId p => inr (aiSdkProviderId env p)
    | js_createTelemetryPlugin o => inr (Some (TelemetryPlugin o))
    | js_createReasoningExtractionPlugin t => inr (Some (ReasoningExtractionPlugin t))
    | js_createSimulateStreamingPlugin => inr (Some SimulateStreamingPlugin)
    | js_createAnthropicCachePlugin => inr (Some AnthropicCachePlugin)
    | js_createOpenrouterReasoningPlugin => inr (Some OpenrouterReasoningPlugin)
    | js_createNoThinkPlugin => inr (Some NoThinkPlugin)
    | js_createQwenThinkingPlugin b => inr (Some (QwenThinkingPlugin b))
    | js_createOpenrouterGenerateImagePlugin => inr (Some OpenrouterGenerateImagePlugin)
    | js_createSkipGeminiThoughtSignaturePlugin i =>
        inr (Some (SkipGeminiThoughtSignaturePlugin i))
    | js_webSearchPlugin cfg => inr (Some (WebSearchPlugin cfg))
    | js_searchOrchestrationPlugin a t => inr (Some (SearchOrchestrationPlugin a t))
    | js_createPromptToolUsePlugin o => inr (Some (PromptToolUsePlugin o))
    | js_logger_debug _ _ => inr tt
    end.

End Untyped.

Arguments Returned {E A} a.
Arguments Raised {E A} e.
Arguments Failed {E A} t.

(** More concrete requests. *)
Module Variants.

#[local] Existing Instance unit_types.

Import Requests.

(** A request to Ollama for a Qwen model. *)
Definition ollama_request : @BuildPluginsContext unit_types :=
  {| provider := a_provider "ollama" "ollama";
     model := a_model "qwen3-8b";
     config := a_config true false false None None |}.

(** A request inside a topic that simulates tool use by prompt. *)
Definition prompt_tools_request : @BuildPluginsContext unit_types :=
  {| provider := a_provider "gemini" "gemini";
     model := a_model "gemini-2.5-flash";
     config := a_config true true false (Some "topic-1")
                        (Some (an_assistant None)) |}.

(** Two requests that differ in the fields [buildPlugins] does not read, and
    in which tools they carry. *)
Definition request_a : @BuildPluginsContext unit_types :=
  {| provider := a_provider "ovms" "openai";
     model := a_model "Qwen3-8B";
     config :=
       {| streamOutput := false; onChunk := None; assistant := None;
          enableReasoning := false; isPromptToolUse := false;
          isSupportedToolUse := true; isImageGenerationEndpoint := false;
          enableWebSearch := true; enableGenerateImage := false;
          enableUrlContext := false; mcpTools := Some [ "fetch" ];
          uiMessages := None; webSearchPluginConfig := Some tt;
          knowledgeRecognition := None; mcpMode := Some "auto";
          topicId := Some "topic-1" |} |}.

Definition request_b : @BuildPluginsContext unit_types :=
  {| provider := a_provider "ovms" "openai";
     model := a_model "Qwen3-8B";
     config :=
       {| streamOutput := false; onChunk := Some tt; assistant := None;
          enableReasoning := true; isPromptToolUse := false;
          isSupportedToolUse := true; isImageGenerationEndpoint := true;
          enableWebSearch := true; enableGenerateImage := true;
          enableUrlContext := true; mcpTools := Some [ "search"; "time" ];
          uiMessages := Some [ tt ]; webSearchPluginConfig := Some tt;
          knowledgeRecognition := Some kr_on; mcpMode := Some "auto";
          topicId := Some "topic-1" |} |}.

(** A streamed request to Anthropic with a token threshold for caching. *)
Definition anthropic_request (threshold : spec_float) : @BuildPluginsContext unit_types :=
  {| provider := {| provider_id := "anthropic"; provider_type := "anthropic";
                    anthropicCacheControl := Some {| tokenThreshold := threshold |};
                    provider_rest := tt |};
     model := a_model "claude-sonnet-4";
     config := a_config true false false None None |}.

(** A request to an OpenAI provider for a model whose id has upper-case
    letters. *)
Definition upper_case_request : @BuildPluginsContext unit_types :=
  {| provider := a_provider "openai" "openai";
     model := a_model "GPT-4o";
     config := a_config true false false None None |}.

(** The request of the example, with a model object that has no [id]. *)
Definition no_id_request : @JsContext unit_types :=
  {| js_provider := Some (a_provider "openai" "openai");
     js_model := Some {| js_id := None; js_model_rest := tt |};
     js_config := Some (a_config false false false None None) |}.

(** The pure collaborators of [no_capabilities], for a received context. *)
Definition js_returning : @JsHandler unit_types string :=
  pure_js string no_capabilities developer_mode_off.

(** The same, except that the factory of the streaming plugin returns
    [undefined]. *)
Definition js_undefined_plugin : @JsHandler unit_types string :=
  fun c =>
    match c return string + js_result c with
    | js_createSimulateStreamingPlugin => inr None
    | c' => js_returning c'
    end.

(** The same as [js_returning], except that every model is taken for a
    Gemini 3 model and the provider-id resolver throws. *)
Definition js_resolver_throws : @JsHandler unit_types string :=
  fun c =>
    match c return string + js_result c with
    | js_getAiSdkProviderId _ => inl "unknown provider"
    | js_isGemini3Model _ => inr true
    | c' => js_returning c'
    end.

(** Collaborators that return as [no_capabilities] does, except that the
    tag-name helper and the logger throw. *)
Definition two_throw : @Handler unit_types string :=
  fun c =>
    match c return string + result c with
    | getReasoningTagName _ => inl "no tag name"
    | logger_debug _ _ => inl "logger closed"
    | c' => returning c'
    end.

End Variants.

(** ** Proof automation *)

(* Case analysis on the leftmost atom of a boolean condition. *)
Ltac split_bool b :=
  lazymatch b with
  | negb ?x => split_bool x
  | andb ?x _ => split_bool x
  | orb ?x _ => split_bool x
  | _ => destruct b eqn:?
  end.

Ltac split_guards :=
  repeat match goal with
         | |- context [if ?b then _ else _] => split_bool b; simpl
         | |- context [match ?o with Some _ => _ | None => _ end] =>
             destruct o eqn:?; simpl
         end.

Section Properties.

Context {T : RendererTypes}.
Variable openrouter : string.
Variable env : Capabilities.

Lemma run_bind (A B : Type) (p : Prog A) (f : A -> Prog B) (w : World) :
  run env (bind p f) w = run env (f (fst (run env p w))) (snd (run env p w)).
Proof.
  revert w. induction p as [a | c k IH]; intro w; simpl.
  - reflexivity.
  - destruct (handle env c w) as [x w']. apply IH.
Qed.

Lemma run_step (A B : Type) (p : Prog A) (f : A -> Prog B) (w : World) (a : A) :
  run env p w = (a, w) -> run env (bind p f) w = run env (f a) w.
Proof. intro H. rewrite run_bind, H. reflexivity. Qed.

(* One statement of the function: the array [acc] becomes
   [acc ++ opt_list (r k)], where [r] gives the rows of the table, and the
   state outside is untouched. *)
Ltac statement r acc k :=
  let acc' := fresh "plugins" in
  match goal with
  | |- run ?e (bind ?s ?f) ?w = _ =>
      rewrite (@run_step _ _ s f w (acc ++ opt_list (r k))%list);
      [ cbv beta; set (acc' := (acc ++ opt_list (r k))%list)
      | clearbody acc; unfold row, guard, andP, notP, call, push, truthy_string;
        simpl; split_guards; rewrite ?app_nil_r;
        try reflexivity; try discriminate ]
  end.

Lemma run_buildPlugins (w : World) (ctx : BuildPluginsContext) :
  run env (buildPlugins openrouter ctx) w =
  (table openrouter env w ctx,
   {| enableDeveloperMode := enableDeveloperMode w;
      logged := logged w ++ [("Final plugin list:", names (table openrouter env w ctx))] |}).
Proof.
  unfold buildPlugins. cbv zeta.
  set (plugins := @nil AiPlugin).
  statement (row openrouter env w ctx) plugins Telemetry.
  statement (row openrouter env w ctx) plugins0 ReasoningExtraction.
  statement (row openrouter env w ctx) plugins1 SimulateStreaming.
  statement (row openrouter env w ctx) plugins2 CacheControl.
  statement (row openrouter env w ctx) plugins3 ReasoningRedaction.
  statement (row openrouter env w ctx) plugins4 ThinkSuppression.
  statement (row openrouter env w ctx) plugins5 ThinkingTokenControl.
  statement (row openrouter env w ctx) plugins6 ImageGenerationRedirect.
  statement (row openrouter env w ctx) plugins7 SignatureStripping.
  statement (row openrouter env w ctx) plugins8 WebSearch.
  statement (row openrouter env w ctx) plugins9 SearchOrchestration.
  statement (row openrouter env w ctx) plugins10 PromptToolUse.
  assert (E : plugins11 = table openrouter env w ctx).
  { subst plugins11 plugins10 plugins9 plugins8 plugins7 plugins6 plugins5
          plugins4 plugins3 plugins2 plugins1 plugins0 plugins.
    unfold table, table_order. cbn [flat_map].
    rewrite <- !app_assoc, app_nil_r. reflexivity. }
  simpl. unfold names. rewrite E. reflexivity.
Qed.

Lemma select_table (w : World) (ctx : BuildPluginsContext) :
  select openrouter env w ctx = table openrouter env w ctx.
Proof. unfold select. rewrite run_buildPlugins. reflexivity. Qed.

(** *** The rows *)

Lemma row_kind (w : World) (ctx : BuildPluginsContext) (k : PluginKind) (p : AiPlugin) :
  row openrouter env w ctx k = Some p -> kind_of p = k.
Proof.
  unfold row. destruct (guard openrouter env w ctx k); [ | discriminate ].
  destruct k; simpl;
    try (intro H; injection H as <-; reflexivity).
  - destruct (topicId (config ctx)); [ | discriminate ].
    intro H; injection H as <-; reflexivity.
  - destruct (webSearchPluginConfig (config ctx)); [ | discriminate ].
    intro H; injection H as <-; reflexivity.
Qed.

Lemma row_guard (w : World) (ctx : BuildPluginsContext) (k : PluginKind) :
  guard openrouter env w ctx k = true <-> exists p, row openrouter env w ctx k = Some p.
Proof.
  unfold row. split.
  - intro G. rewrite G. destruct k; simpl in *; eauto.
    + destruct (topicId (config ctx)); [ eauto | discriminate ].
    + destruct (webSearchPluginConfig (config ctx)); [ eauto | ].
      rewrite andb_false_r in G. discriminate.
  - intros [p H]. destruct (guard openrouter env w ctx k); [ reflexivity | discriminate ].
Qed.

Lemma kinds_row (w : World) (ctx : BuildPluginsContext) (k : PluginKind) :
  map kind_of (opt_list (row openrouter env w ctx k)) =
  if guard openrouter env w ctx k then [k] else [].
Proof.
  destruct (guard openrouter env w ctx k) eqn:G.
  - apply row_guard in G. destruct G as [p H]. rewrite H. simpl.
    rewrite (row_kind _ _ _ H). reflexivity.
  - unfold row. rewrite G. reflexivity.
Qed.

Lemma kinds_rows (w : World) (ctx : BuildPluginsContext) (l : list PluginKind) :
  map kind_of (flat_map (fun k => opt_list (row openrouter env w ctx k)) l) =
  filter (guard openrouter env w ctx) l.
Proof.
  induction l as [ | k l IH]; simpl.
  - reflexivity.
  - rewrite map_app, kinds_row, IH.
    destruct (guard openrouter env w ctx k); reflexivity.
Qed.

Lemma kinds_select (w : World) (ctx : BuildPluginsContext) :
  map kind_of (select openrouter env w ctx) =
  filter (guard openrouter env w ctx) table_order.
Proof. rewrite select_table. apply kinds_rows. Qed.

Lemma in_select (w : World) (ctx : BuildPluginsContext) (p : AiPlugin) :
  In p (select openrouter env w ctx) <->
  row openrouter env w ctx (kind_of p) = Some p.
Proof.
  rewrite select_table. unfold table. rewrite in_flat_map. split.
  - intros [k [_ H]]. destruct (row openrouter env w ctx k) as [q | ] eqn:R;
      simpl in H; [ | contradiction ].
    destruct H as [<- | []]. rewrite (row_kind _ _ _ R). exact R.
  - intro R. exists (kind_of p). split.
    + destruct (kind_of p); simpl; tauto.
    + rewrite R. left. reflexivity.
Qed.

Lemma table_order_NoDup : NoDup table_order.
Proof.
  unfold table_order.
  repeat (constructor; [ simpl; intuition discriminate | ]).
  constructor.
Qed.

Lemma table_order_complete (k : PluginKind) : In k table_order.
Proof. destruct k; simpl; tauto. Qed.

(** *** Order of the selected plugins *)

Lemma filter_sorted (A : Type) (R : A -> A -> Prop) (f : A -> bool) (l : list A) :
  StronglySorted R l -> StronglySorted R (filter f l).
Proof.
  induction 1 as [ | a l S IH F]; simpl.
  - constructor.
  - destruct (f a); [ | exact IH ].
    constructor; [ exact IH | ].
    rewrite Forall_forall in *. intros x Hx.
    apply filter_In in Hx. apply F, Hx.
Qed.

Lemma sorted_positions (A : Type) (key : A -> nat) (l : list A) :
  StronglySorted (fun a b => key a < key b) l ->
  forall i j x y,
    nth_error l i = Some x -> nth_error l j = Some y -> key x < key y -> i < j.
Proof.
  induction 1 as [ | a l S IH F]; intros i j x y Hi Hj Hk.
  - destruct i; discriminate.
  - rewrite Forall_forall in F.
    destruct i as [ | i], j as [ | j]; simpl in *.
    + injection Hi as <-. injection Hj as <-. lia.
    + lia.
    + injection Hj as <-. apply nth_error_In in Hi. apply F in Hi. lia.
    + apply -> Nat.succ_lt_mono. eapply IH; eassumption.
Qed.

Lemma table_order_sorted :
  StronglySorted (fun a b => rank a < rank b) table_order.
Proof.
  unfold table_order.
  repeat (constructor; [ | repeat constructor; simpl; lia ]).
  constructor.
Qed.

Lemma select_positions (w : World) (ctx : BuildPluginsContext)
      (i j : nat) (p q : AiPlugin) :
  nth_error (select openrouter env w ctx) i = Some p ->
  nth_error (select openrouter env w ctx) j = Some q ->
  rank (kind_of p) < rank (kind_of q) ->
  i < j.
Proof.
  intros Hi Hj Hr.
  apply (map_nth_error kind_of) in Hi. apply (map_nth_error kind_of) in Hj.
  rewrite kinds_select in Hi, Hj.
  eapply sorted_positions; [ | exact Hi | exact Hj | exact Hr ].
  apply filter_sorted, table_order_sorted.
Qed.

(** *** What the state outside contributes *)

Lemma guard_world (w1 w2 : World) (ctx : BuildPluginsContext) (k : PluginKind) :
  enableDeveloperMode w1 = enableDeveloperMode w2 ->
  guard openrouter env w1 ctx k = guard openrouter env w2 ctx k.
Proof. intro H. destruct k; simpl; rewrite ?H; reflexivity. Qed.

Lemma table_world (w1 w2 : World) (ctx : BuildPluginsContext) :
  enableDeveloperMode w1 = enableDeveloperMode w2 ->
  table openrouter env w1 ctx = table openrouter env w2 ctx.
Proof.
  intro H. unfold table. apply flat_map_ext. intro k.
  unfold row. rewrite (guard_world _ _ _ _ H). reflexivity.
Qed.

Lemma kind_name_injective (a b : PluginKind) : kind_name a = kind_name b -> a = b.
Proof. destruct a, b; simpl; intro H; try reflexivity; discriminate H. Qed.

(** *** Calls *)

Lemma calls_may_call (A : Type) (p : Prog A) (w : World) (c : ExtCall) :
  In c (calls env p w) -> may_call p c.
Proof.
  revert w. induction p as [a | c' k IH]; intros w H; simpl in *.
  - contradiction.
  - destruct H as [H | H]; [ left; symmetry; exact H | ].
    destruct (handle env c' w) as [x w']. right. exists x. eapply IH, H.
Qed.

Lemma may_call_bind (A B : Type) (p : Prog A) (f : A -> Prog B) (c : ExtCall) :
  may_call (bind p f) c -> may_call p c \/ exists a, may_call (f a) c.
Proof.
  induction p as [a | c' k IH]; simpl.
  - intro H. right. exists a. exact H.
  - intros [H | [x H]].
    + left. left. exact H.
    + destruct (IH x H) as [H' | H'].
      * left. right. exists x. exact H'.
      * right. exact H'.
Qed.

(* Case analysis of [H : may_call p c] along the shape of [p]. *)
Ltac call_sites H :=
  repeat (cbn [bind may_call] in H;
          match type of H with
          | False => contradiction
          | _ \/ _ => destruct H as [H | H]
          | exists _, _ => destruct H as [? H]
          | _ = _ => subst
          | may_call (andP _ _) _ => unfold andP in H
          | may_call (notP _) _ => unfold notP in H
          | may_call (call _) _ => unfold call in H
          | may_call (bind _ _) _ =>
              apply may_call_bind in H; destruct H as [H | [? H]]; cbv beta in H
          | may_call (if ?b then _ else _) _ => destruct b eqn:?
          | may_call (match ?o with Some _ => _ | None => _ end) _ =>
              destruct o eqn:?
          end).

Lemma buildPlugins_calls (ctx : BuildPluginsContext) (c : ExtCall) :
  may_call (buildPlugins openrouter ctx) c -> selector_call openrouter ctx c.
Proof.
  intro H. unfold buildPlugins in H. cbv zeta in H.
  call_sites H; try (constructor; assumption).
  - constructor. rewrite Heqo. assumption.
  - constructor. apply negb_true_iff. assumption.
  - match goal with
    | E : (if ?b then _ else _) = Some _ |- _ =>
        destruct b eqn:?; [ constructor; assumption | discriminate E ]
    end.
Qed.

Section Throwing.

Variable Err : Type.
Variable h : Handler Err.

Lemma runE_error_origin (A : Type) (p : Prog A) (e : Err) :
  runE h p = inl e -> exists c, may_call p c /\ h c = inl e.
Proof.
  induction p as [a | c k IH]; simpl.
  - discriminate.
  - destruct (h c) as [e' | x] eqn:Hc.
    + intro H. injection H as ->. exists c. split; [ left; reflexivity | exact Hc ].
    + intro H. destruct (IH x H) as [c' [Hm He]].
      exists c'. split; [ right; exists x; exact Hm | exact He ].
Qed.

Lemma runE_returns (A : Type) (p : Prog A) :
  (forall c, may_call p c -> exists x, h c = inr x) ->
  exists a, runE h p = inr a.
Proof.
  intro H. destruct (runE h p) as [e | a] eqn:E.
  - apply runE_error_origin in E. destruct E as [c [Hm He]].
    destruct (H c Hm) as [x Hx]. congruence.
  - exists a. reflexivity.
Qed.

(** When every call returns what the pure collaborators return, the two
    interpreters agree. *)
Lemma runE_pure (A : Type) (p : Prog A) (w0 : World) :
  (forall c, h c = inr (fst (handle env c w0))) ->
  forall w, enableDeveloperMode w = enableDeveloperMode w0 ->
  runE h p = inr (fst (run env p w)).
Proof.
  intro H. induction p as [a | c k IH]; intros w Hw; simpl.
  - reflexivity.
  - rewrite H.
    assert (E : fst (handle env c w0) = fst (handle env c w)
                /\ enableDeveloperMode (snd (handle env c w)) = enableDeveloperMode w0).
    { destruct c; simpl; rewrite ?Hw; split; reflexivity. }
    destruct E as [E1 E2]. rewrite E1.
    destruct (handle env c w) as [x w']. simpl in *. apply IH, E2.
Qed.

End Throwing.

(** *** Small facts on lists and rows *)

Lemma nth_error_after (A : Type) (l r : list A) (n : nat) :
  nth_error (l ++ r) (length l + n) = nth_error r n.
Proof. induction l as [ | a l IH]; simpl; [ reflexivity | exact IH ]. Qed.

Lemma PluginKind_eqb_eq (a b : PluginKind) : PluginKind_eqb a b = true <-> a = b.
Proof. destruct a, b; simpl; split; intro H; try reflexivity; discriminate H. Qed.

Lemma at_most_once (l : list AiPlugin) (k : PluginKind) :
  NoDup (map kind_of l) ->
  length (filter (fun p => PluginKind_eqb (kind_of p) k) l) <= 1.
Proof.
  induction l as [ | a l IH]; simpl; intro N.
  - lia.
  - inversion N as [ | x xs Hnotin N']; subst.
    destruct (PluginKind_eqb (kind_of a) k) eqn:E.
    + apply PluginKind_eqb_eq in E. simpl.
      assert (Z : filter (fun p => PluginKind_eqb (kind_of p) k) l = []).
      { destruct (filter (fun p => PluginKind_eqb (kind_of p) k) l) as [ | b r] eqn:F;
          [ reflexivity | exfalso ].
        assert (Hb : In b (filter (fun p => PluginKind_eqb (kind_of p) k) l))
          by (rewrite F; left; reflexivity).
        apply filter_In in Hb. destruct Hb as [Hb Hk].
        apply PluginKind_eqb_eq in Hk. apply Hnotin.
        rewrite E, <- Hk. apply in_map, Hb. }
      rewrite Z. simpl. lia.
    + apply IH, N'.
Qed.

Lemma kinds_NoDup (w : World) (ctx : BuildPluginsContext) :
  NoDup (map kind_of (select openrouter env w ctx)).
Proof. rewrite kinds_select. apply NoDup_filter, table_order_NoDup. Qed.

Lemma in_kinds (w : World) (ctx : BuildPluginsContext) (k : PluginKind) :
  In k (map kind_of (select openrouter env w ctx)) <->
  guard openrouter env w ctx k = true.
Proof.
  rewrite kinds_select, filter_In. split.
  - intros [_ H]. exact H.
  - intro H. split; [ apply table_order_complete | exact H ].
Qed.

Lemma in_names (w : World) (ctx : BuildPluginsContext) (k : PluginKind) :
  In (kind_name k) (names (select openrouter env w ctx)) <->
  In k (map kind_of (select openrouter env w ctx)).
Proof.
  unfold names, name. rewrite <- (map_map kind_of kind_name). split.
  - intro H. apply in_map_iff in H. destruct H as [k' [E H]].
    apply kind_name_injective in E. subst k'. exact H.
  - apply in_map.
Qed.

Lemma kind_names_NoDup (l : list PluginKind) :
  NoDup l -> NoDup (map kind_name l).
Proof.
  induction 1 as [ | k l Hnotin N IH]; simpl; constructor.
  - rewrite in_map_iff. intros [k' [E I]].
    apply kind_name_injective in E. subst k'. contradiction.
  - exact IH.
Qed.

Lemma type_is_completion_api (ctx : BuildPluginsContext) :
  provider_type (provider ctx) = "openai"
  \/ provider_type (provider ctx) = "azure-openai" ->
  (provider_type (provider ctx) =? "openai")
  || (provider_type (provider ctx) =? "azure-openai") = true.
Proof. intros [-> | ->]; reflexivity. Qed.

(** ** The claims *)

Lemma guard_same (w1 w2 : World) (ctx : BuildPluginsContext) (k : PluginKind) :
  enableDeveloperMode w1 = enableDeveloperMode w2
  \/ truthy_string (topicId (config ctx)) = false ->
  guard openrouter env w1 ctx k = guard openrouter env w2 ctx k.
Proof.
  intros [H | H]; [ apply guard_world, H | ].
  destruct k; simpl; rewrite ?H; reflexivity.
Qed.

(** C1 (amended).  Two calls with structurally identical contexts return
    the same plugins, with the same names in the same order, if and only if
    the developer-mode setting that [getEnableDeveloperMode] reads has the
    same value at both calls or the topic id of the context is absent or
    empty.  Nothing else outside the context decides the outcome: the lines
    the logger has seen before the two calls are arbitrary. *)
Theorem same_context_same_selection_iff_same_setting
        (w1 w2 : World) (ctx1 ctx2 : BuildPluginsContext) :
  ctx1 = ctx2 ->
  let same_setting :=
    enableDeveloperMode w1 = enableDeveloperMode w2
    \/ truthy_string (topicId (config ctx1)) = false in
  (select openrouter env w1 ctx1 = select openrouter env w2 ctx2 <-> same_setting)
  /\ (names (select openrouter env w1 ctx1) = names (select openrouter env w2 ctx2)
      <-> same_setting).
Proof.
  intros <-. cbv zeta.
  assert (Back : enableDeveloperMode w1 = enableDeveloperMode w2
                 \/ truthy_string (topicId (config ctx1)) = false ->
                 select openrouter env w1 ctx1 = select openrouter env w2 ctx1).
  { intro H. rewrite !select_table. unfold table. apply flat_map_ext. intro k.
    unfold row. rewrite (guard_same w1 w2 ctx1 k H). reflexivity. }
  assert (Forth : names (select openrouter env w1 ctx1) =
                  names (select openrouter env w2 ctx1) ->
                  enableDeveloperMode w1 = enableDeveloperMode w2
                  \/ truthy_string (topicId (config ctx1)) = false).
  { intro E.
    assert (G : guard openrouter env w1 ctx1 Telemetry = true <->
                guard openrouter env w2 ctx1 Telemetry = true).
    { rewrite <- !in_kinds, <- !in_names, E. reflexivity. }
    simpl in G.
    destruct (truthy_string (topicId (config ctx1))); [ left | right; reflexivity ].
    simpl in G.
    destruct (enableDeveloperMode w1), (enableDeveloperMode w2);
      try reflexivity; destruct G as [G1 G2];
      [ discriminate (G1 eq_refl) | discriminate (G2 eq_refl) ]. }
  split; split.
  - intro E. apply Forth. rewrite E. reflexivity.
  - exact Back.
  - exact Forth.
  - intro H. rewrite (Back H). reflexivity.
Qed.

(** C2.  The twelve rules are evaluated independently of one another: the
    output is the table read from top to bottom, each row contributing its
    plugin exactly when its guard holds.  So the kinds of the output are the
    rows whose guard holds, in table order; a kind occurs in the output if
    and only if its guard holds; no kind and no name occurs twice; and the
    output has at most twelve plugins. *)
Theorem selection_follows_the_table (w : World) (ctx : BuildPluginsContext) :
  let out := select openrouter env w ctx in
  out = flat_map (fun k => opt_list (row openrouter env w ctx k)) table_order
  /\ map kind_of out = filter (guard openrouter env w ctx) table_order
  /\ names out = map kind_name (filter (guard openrouter env w ctx) table_order)
  /\ map kind_name table_order =
       [ "telemetry"; "reasoning-extraction"; "simulate-streaming";
         "cache-control"; "reasoning-redaction"; "think-suppression";
         "thinking-token-control"; "image-generation-redirect";
         "signature-stripping"; "web-search"; "search-orchestration";
         "prompt-tool-use" ]
  /\ (forall k, In k (map kind_of out) <-> guard openrouter env w ctx k = true)
  /\ (forall k, length (filter (fun p => PluginKind_eqb (kind_of p) k) out) <= 1)
  /\ NoDup (map kind_of out)
  /\ NoDup (names out)
  /\ length out <= 12.
Proof.
  cbv zeta.
  assert (N : names (select openrouter env w ctx) =
              map kind_name (filter (guard openrouter env w ctx) table_order)).
  { unfold names, name. rewrite <- (map_map kind_of kind_name), kinds_select.
    reflexivity. }
  repeat split.
  - apply select_table.
  - apply kinds_select.
  - exact N.
  - apply in_kinds.
  - apply in_kinds.
  - intro k. apply at_most_once, kinds_NoDup.
  - apply kinds_NoDup.
  - rewrite N. apply kind_names_NoDup, NoDup_filter, table_order_NoDup.
  - rewrite <- (length_map kind_of), kinds_select.
    apply (NoDup_incl_length (l' := table_order)).
    + apply NoDup_filter, table_order_NoDup.
    + intros k _. apply table_order_complete.
Qed.

(** C3.  For a provider of type openai or azure-openai and a request that
    does not stream its output, the reasoning-extraction plugin and the
    simulate-streaming plugin are both in the returned sequence, the second
    right after the first; and wherever the two kinds occur, the index of
    reasoning extraction is strictly lower. *)
Theorem reasoning_extraction_precedes_simulate_streaming
        (w : World) (ctx : BuildPluginsContext) :
  provider_type (provider ctx) = "openai"
  \/ provider_type (provider ctx) = "azure-openai" ->
  streamOutput (config ctx) = false ->
  let out := select openrouter env w ctx in
  (exists i,
      nth_error out i =
        Some (ReasoningExtractionPlugin
                (reasoningTagName env (toLowerCase (model_id (model ctx)))))
      /\ nth_error out (S i) = Some SimulateStreamingPlugin)
  /\ (forall i j p q,
         nth_error out i = Some p -> kind_of p = ReasoningExtraction ->
         nth_error out j = Some q -> kind_of q = SimulateStreaming ->
         i < j).
Proof.
  intros Ht Hs. cbv zeta. split.
  - apply type_is_completion_api in Ht.
    rewrite select_table. unfold table, table_order. cbn [flat_map].
    assert (R1 : row openrouter env w ctx ReasoningExtraction =
                 Some (ReasoningExtractionPlugin
                         (reasoningTagName env (toLowerCase (model_id (model ctx)))))).
    { unfold row, guard. rewrite Ht. reflexivity. }
    assert (R2 : row openrouter env w ctx SimulateStreaming = Some SimulateStreamingPlugin).
    { unfold row, guard. rewrite Hs. reflexivity. }
    rewrite R1, R2. cbn [opt_list app].
    exists (length (opt_list (row openrouter env w ctx Telemetry))). split.
    + rewrite <- (Nat.add_0_r (length _)) at 1. rewrite nth_error_after. reflexivity.
    + rewrite <- Nat.add_1_r, nth_error_after. reflexivity.
  - intros i j p q Hi Hp Hj Hq.
    eapply select_positions; [ exact Hi | exact Hj | ].
    rewrite Hp, Hq. simpl. lia.
Qed.

(** C4.  When every one of the twelve guards is false, the returned sequence
    is empty. *)
Theorem no_guard_no_plugin (w : World) (ctx : BuildPluginsContext) :
  (forall k, guard openrouter env w ctx k = false) ->
  select openrouter env w ctx = [].
Proof.
  intro H. rewrite select_table. unfold table, table_order. cbn [flat_map].
  unfold row. rewrite !H. reflexivity.
Qed.

(** C5.  While developer mode is disabled the telemetry plugin is not in the
    returned sequence, whatever the context is (its topic id included). *)
Theorem no_telemetry_without_developer_mode (w : World) (ctx : BuildPluginsContext) :
  enableDeveloperMode w = false ->
  let out := select openrouter env w ctx in
  ~ In Telemetry (map kind_of out)
  /\ ~ In "telemetry" (names out)
  /\ (forall opts, ~ In (TelemetryPlugin opts) out).
Proof.
  intro H. cbv zeta.
  assert (G : guard openrouter env w ctx Telemetry = false).
  { simpl. rewrite H. apply andb_false_r. }
  assert (K : ~ In Telemetry (map kind_of (select openrouter env w ctx))).
  { rewrite in_kinds, G. discriminate. }
  repeat split.
  - exact K.
  - intro N. apply K. apply (in_names w ctx Telemetry). exact N.
  - intros opts I. apply K.
    apply (in_map kind_of) in I. exact I.
Qed.

(** C6.  When the request enables both native and prompt-simulated tool
    use, the search-orchestration plugin and the prompt-tool-use plugin are
    the last two plugins of the returned sequence, in that order; and
    wherever the two kinds occur, the index of search orchestration is
    strictly lower. *)
Theorem search_orchestration_precedes_prompt_tool_use
        (w : World) (ctx : BuildPluginsContext) :
  isSupportedToolUse (config ctx) = true ->
  isPromptToolUse (config ctx) = true ->
  let out := select openrouter env w ctx in
  (exists i,
      nth_error out i =
        Some (SearchOrchestrationPlugin (assistant (config ctx))
                                        (topicId_or_empty (topicId (config ctx))))
      /\ nth_error out (S i) =
           Some (PromptToolUsePlugin {| ptu_enabled := true;
                                        ptu_mcpMode := mcpMode (config ctx) |})
      /\ length out = S (S i))
  /\ (forall i j p q,
         nth_error out i = Some p -> kind_of p = SearchOrchestration ->
         nth_error out j = Some q -> kind_of q = PromptToolUse ->
         i < j).
Proof.
  intros Hs Hp. cbv zeta. split.
  - rewrite select_table. unfold table, table_order. cbn [flat_map].
    assert (R1 : row openrouter env w ctx SearchOrchestration =
                 Some (SearchOrchestrationPlugin
                         (assistant (config ctx))
                         (topicId_or_empty (topicId (config ctx))))).
    { unfold row, guard. rewrite Hs. reflexivity. }
    assert (R2 : row openrouter env w ctx PromptToolUse =
                 Some (PromptToolUsePlugin {| ptu_enabled := true;
                                              ptu_mcpMode := mcpMode (config ctx) |})).
    { unfold row, guard. rewrite Hp. reflexivity. }
    rewrite R1, R2. cbn [opt_list app]. rewrite !app_assoc.
    match goal with
    | |- exists i, nth_error (?front ++ _) _ = _ /\ _ => exists (length front)
    end.
    repeat split.
    + rewrite <- (Nat.add_0_r (length _)) at 1. rewrite nth_error_after. reflexivity.
    + rewrite <- Nat.add_1_r, nth_error_after. reflexivity.
    + rewrite length_app. simpl. lia.
  - intros i j p q Hi Hk Hj Hq.
    eapply select_positions; [ exact Hi | exact Hj | ].
    rewrite Hk, Hq. simpl. lia.
Qed.

(** C7.  The example of the specification: for a provider of type openai,
    the model gpt-4o, a request that neither streams nor uses tools nor
    searches the web, and every other guard false, the returned sequence is
    the reasoning-extraction plugin (for the tag name of "gpt-4o") followed
    by the simulate-streaming plugin, and its names are
    reasoning-extraction, simulate-streaming. *)
Theorem openai_gpt4o_selection (w : World) (ctx : BuildPluginsContext) :
  provider_type (provider ctx) = "openai" ->
  model_id (model ctx) = "gpt-4o" ->
  streamOutput (config ctx) = false ->
  isPromptToolUse (config ctx) = false ->
  isSupportedToolUse (config ctx) = false ->
  enableWebSearch (config ctx) = false ->
  guard openrouter env w ctx Telemetry = false ->
  guard openrouter env w ctx ReasoningRedaction = false ->
  guard openrouter env w ctx ThinkSuppression = false ->
  guard openrouter env w ctx ThinkingTokenControl = false ->
  guard openrouter env w ctx ImageGenerationRedirect = false ->
  guard openrouter env w ctx SignatureStripping = false ->
  select openrouter env w ctx =
    [ ReasoningExtractionPlugin (reasoningTagName env "gpt-4o");
      SimulateStreamingPlugin ]
  /\ names (select openrouter env w ctx) =
       [ "reasoning-extraction"; "simulate-streaming" ].
Proof.
  intros Ht Hm Hs Hp Hn Hw G0 G4 G5 G6 G7 G8.
  assert (E : select openrouter env w ctx =
              [ ReasoningExtractionPlugin (reasoningTagName env "gpt-4o");
                SimulateStreamingPlugin ]).
  { rewrite select_table. unfold table, table_order. cbn [flat_map].
    unfold row. rewrite G0, G4, G5, G6, G7, G8.
    unfold guard. rewrite Ht, Hm, Hs, Hp, Hn, Hw. reflexivity. }
  rewrite E. split; reflexivity.
Qed.

(** C8.  The thinking-token-control plugin is in the returned sequence if and
    only if the model supports the Qwen thinking-token control, the provider
    has no support for enable_thinking, and the provider is not Ollama.  Its
    flag is then [true] exactly when the reasoning effort of the assistant's
    settings is defined. *)
Theorem thinking_token_control_rule (w : World) (ctx : BuildPluginsContext) :
  let out := select openrouter env w ctx in
  let applies :=
    thinkingTokenQwenModel env (model ctx) = true
    /\ enableThinkingProvider env (provider ctx) = false
    /\ ollamaProvider env (provider ctx) = false in
  (In ThinkingTokenControl (map kind_of out) <-> applies)
  /\ (forall flag,
         In (QwenThinkingPlugin flag) out <->
         applies /\ flag = reasoning_effort_defined (assistant (config ctx)))
  /\ (reasoning_effort_defined (assistant (config ctx)) = true <->
      exists a s r,
        assistant (config ctx) = Some a /\ settings a = Some s
        /\ reasoning_effort s = Some r).
Proof.
  cbv zeta.
  assert (G : guard openrouter env w ctx ThinkingTokenControl = true <->
              thinkingTokenQwenModel env (model ctx) = true
              /\ enableThinkingProvider env (provider ctx) = false
              /\ ollamaProvider env (provider ctx) = false).
  { simpl. rewrite !andb_true_iff, !negb_true_iff. tauto. }
  split; [ | split ].
  - rewrite in_kinds. exact G.
  - intro flag. rewrite in_select. simpl kind_of. unfold row.
    destruct (guard openrouter env w ctx ThinkingTokenControl) eqn:E.
    + split.
      * intro H. injection H as H. split; [ apply G; reflexivity | symmetry; exact H ].
      * intros [_ ->]. reflexivity.
    + split.
      * discriminate.
      * intros [H _]. apply G in H. discriminate H.
  - unfold reasoning_effort_defined, truthy_object. split.
    + destruct (assistant (config ctx)) as [a | ]; [ | discriminate ].
      destruct (settings a) as [st | ] eqn:Hs; [ | discriminate ].
      destruct (reasoning_effort st) as [r | ] eqn:Hr; [ | discriminate ].
      intros _. exists a, st, r. repeat split; assumption.
    + intros [a [st [r [-> [Hs Hr]]]]]. rewrite Hs, Hr. reflexivity.
Qed.

(** C10.  When the topic id is absent or the empty string, the telemetry
    plugin is not added, and the developer-mode setting is not even read: the
    guard tests the topic id first.  So whenever the telemetry plugin is in
    the returned sequence, the topic id its factory was given is the topic id
    of the request, a non-empty string. *)
Theorem telemetry_needs_a_topic (w : World) (ctx : BuildPluginsContext) :
  let out := select openrouter env w ctx in
  (topicId (config ctx) = None \/ topicId (config ctx) = Some "" ->
   ~ In Telemetry (map kind_of out)
   /\ ~ In getEnableDeveloperMode (calls env (buildPlugins openrouter ctx) w))
  /\ (forall opts,
         In (TelemetryPlugin opts) out ->
         topicId (config ctx) = Some (tel_topicId opts)
         /\ tel_topicId opts <> ""
         /\ tel_enabled opts = true
         /\ tel_assistant opts = assistant (config ctx)).
Proof.
  cbv zeta. split.
  - intro H.
    assert (F : truthy_string (topicId (config ctx)) = false)
      by (destruct H as [-> | ->]; reflexivity).
    split.
    + rewrite in_kinds. simpl. rewrite F. discriminate.
    + intro I. apply calls_may_call, buildPlugins_calls in I.
      inversion I as [ Ht | | | | | | | | | | | | | | | | | | | | ].
      rewrite F in Ht. discriminate Ht.
  - intros opts I. apply in_select in I. simpl kind_of in I. unfold row in I.
    destruct (guard openrouter env w ctx Telemetry) eqn:G; [ | discriminate I ].
    simpl in G. apply andb_true_iff in G. destruct G as [G _].
    destruct (topicId (config ctx)) as [t | ]; [ | discriminate I ].
    injection I as <-. simpl. repeat split.
    intros ->. discriminate G.
Qed.

(** ** The calls of [buildPlugins] *)

Lemma calls_bind (A B : Type) (p : Prog A) (f : A -> Prog B) (w : World) :
  calls env (bind p f) w =
  (calls env p w ++ calls env (f (fst (run env p w))) (snd (run env p w)))%list.
Proof.
  revert w. induction p as [a | c k IH]; intro w; simpl.
  - reflexivity.
  - destruct (handle env c w) as [x w']. rewrite IH. reflexivity.
Qed.

Lemma calls_step (A B : Type) (p : Prog A) (f : A -> Prog B) (w : World) (a : A) :
  run env p w = (a, w) ->
  calls env (bind p f) w = (calls env p w ++ calls env (f a) w)%list.
Proof. intro H. rewrite calls_bind, H. reflexivity. Qed.

(* One statement of the function, for the calls it makes. *)
Ltac trace_statement r acc k :=
  let acc' := fresh "plugins" in
  match goal with
  | |- calls ?e (bind ?s ?f) ?w = _ =>
      rewrite (@calls_step _ _ s f w (acc ++ opt_list (r k))%list);
      [ cbv beta; set (acc' := (acc ++ opt_list (r k))%list);
        apply (f_equal2 (@app ExtCall));
        [ clearbody acc;
          unfold statement_calls, andP, notP, call, push, truthy_string;
          simpl; split_guards; try reflexivity; try discriminate
        | ]
      | clearbody acc; unfold row, guard, andP, notP, call, push, truthy_string;
        simpl; split_guards; rewrite ?app_nil_r;
        try reflexivity; try discriminate ]
  end.

Lemma calls_buildPlugins (w : World) (ctx : BuildPluginsContext) :
  calls env (buildPlugins openrouter ctx) w =
  (flat_map (statement_calls openrouter env w ctx) table_order
   ++ [ logger_debug "Final plugin list:" (names (select openrouter env w ctx)) ])%list.
Proof.
  rewrite select_table.
  unfold table_order at 1. cbn [flat_map]. rewrite <- !app_assoc, app_nil_l.
  unfold buildPlugins. cbv zeta.
  set (plugins := @nil AiPlugin).
  trace_statement (row openrouter env w ctx) plugins Telemetry.
  trace_statement (row openrouter env w ctx) plugins0 ReasoningExtraction.
  trace_statement (row openrouter env w ctx) plugins1 SimulateStreaming.
  trace_statement (row openrouter env w ctx) plugins2 CacheControl.
  trace_statement (row openrouter env w ctx) plugins3 ReasoningRedaction.
  trace_statement (row openrouter env w ctx) plugins4 ThinkSuppression.
  trace_statement (row openrouter env w ctx) plugins5 ThinkingTokenControl.
  trace_statement (row openrouter env w ctx) plugins6 ImageGenerationRedirect.
  trace_statement (row openrouter env w ctx) plugins7 SignatureStripping.
  trace_statement (row openrouter env w ctx) plugins8 WebSearch.
  trace_statement (row openrouter env w ctx) plugins9 SearchOrchestration.
  trace_statement (row openrouter env w ctx) plugins10 PromptToolUse.
  assert (E : plugins11 = table openrouter env w ctx).
  { subst plugins11 plugins10 plugins9 plugins8 plugins7 plugins6 plugins5
          plugins4 plugins3 plugins2 plugins1 plugins0 plugins.
    unfold table, table_order. cbn [flat_map].
    rewrite <- !app_assoc, app_nil_r. reflexivity. }
  simpl. unfold names. rewrite E. reflexivity.
Qed.

Lemma in_calls (w : World) (ctx : BuildPluginsContext) (c : ExtCall) :
  In c (calls env (buildPlugins openrouter ctx) w) <->
  (exists k, In c (statement_calls openrouter env w ctx k))
  \/ c = logger_debug "Final plugin list:" (names (select openrouter env w ctx)).
Proof.
  rewrite calls_buildPlugins, in_app_iff, in_flat_map. simpl. split.
  - intros [[k [_ H]] | [H | []]]; [ left; exists k; exact H | right; symmetry; exact H ].
  - intros [[k H] | H].
    + left. exists k. split; [ apply table_order_complete | exact H ].
    + right. left. symmetry. exact H.
Qed.

(* Case analysis of [H : In c (statement_calls ... k)] for a given row. *)
Ltac in_statement H :=
  unfold statement_calls in H; cbv zeta in H;
  repeat match type of H with
         | context [if ?b then _ else _] => destruct b eqn:?
         | context [match ?o with Some _ => _ | None => _ end] => destruct o eqn:?
         end;
  simpl in H;
  repeat match type of H with
         | _ \/ _ => destruct H as [H | H]
         | False => contradiction
         end;
  try discriminate H.

Lemma built_app (a b : list ExtCall) : built (a ++ b) = (built a ++ built b)%list.
Proof. unfold built. apply flat_map_app. Qed.

Lemma built_statement (w : World) (ctx : BuildPluginsContext) (k : PluginKind) :
  built (statement_calls openrouter env w ctx k) = opt_list (row openrouter env w ctx k).
Proof.
  destruct k; unfold built, statement_calls, row, guard, truthy_string; cbv zeta;
    split_guards; try reflexivity; try discriminate.
Qed.

Lemma handle_setting (c : ExtCall) (w w' : World) :
  enableDeveloperMode w' = enableDeveloperMode w ->
  fst (handle env c w') = fst (handle env c w)
  /\ enableDeveloperMode (snd (handle env c w')) = enableDeveloperMode w.
Proof. intro H. destruct c; simpl; rewrite ?H; split; reflexivity. Qed.

Lemma runE_first_error (Err : Type) (h : Handler Err) (w : World) (A : Type) (p : Prog A) :
  (forall c x, h c = inr x -> x = fst (handle env c w)) ->
  forall w', enableDeveloperMode w' = enableDeveloperMode w ->
  runE h p =
  match first_error h (calls env p w') with
  | Some e => inl e
  | None => inr (fst (run env p w'))
  end.
Proof.
  intro H. induction p as [a | c k IH]; intros w' Hw; simpl.
  - reflexivity.
  - destruct (h c) as [e | x] eqn:Hc; [ reflexivity | ].
    apply H in Hc. destruct (@handle_setting c w w' Hw) as [E1 E2].
    rewrite <- E1 in Hc. destruct (handle env c w') as [x' w'']. simpl in *.
    subst x'. apply IH, E2.
Qed.

(** ** Further properties of [buildPlugins] *)

(** X1.  A run logs exactly one line, "Final plugin list:" with the names of
    the plugins it returns, after the lines logged before; it does not
    change the developer-mode setting; and the call of the logger is the
    last call of the run and the only one to the logger. *)
Theorem one_log_line (w : World) (ctx : BuildPluginsContext) :
  let w' := snd (run env (buildPlugins openrouter ctx) w) in
  let line := ("Final plugin list:", names (select openrouter env w ctx)) in
  logged w' = (logged w ++ [ line ])%list
  /\ enableDeveloperMode w' = enableDeveloperMode w
  /\ exists front,
       calls env (buildPlugins openrouter ctx) w =
         (front ++ [ logger_debug (fst line) (snd line) ])%list
       /\ forall msg payload, ~ In (logger_debug msg payload) front.
Proof.
  cbv zeta. rewrite run_buildPlugins, select_table. simpl.
  split; [ reflexivity | split; [ reflexivity | ] ].
  exists (flat_map (statement_calls openrouter env w ctx) table_order). split.
  - rewrite calls_buildPlugins, select_table. reflexivity.
  - intros msg payload H. apply in_flat_map in H. destruct H as [k [_ H]].
    destruct k; in_statement H.
Qed.

(** X2.  Whenever the prompt-tool-use plugin is selected, it is the last
    plugin of the sequence and the search-orchestration plugin stands right
    before it: prompt-simulated tool use alone, without native tool use,
    selects both. *)
Theorem prompt_tool_use_follows_search_orchestration
        (w : World) (ctx : BuildPluginsContext) (opts : PromptToolUseOptions) :
  In (PromptToolUsePlugin opts) (select openrouter env w ctx) ->
  isPromptToolUse (config ctx) = true
  /\ exists front,
       select openrouter env w ctx =
       (front ++ [ SearchOrchestrationPlugin (assistant (config ctx))
                                             (topicId_or_empty (topicId (config ctx)));
                   PromptToolUsePlugin opts ])%list.
Proof.
  intro I. apply in_select in I. simpl kind_of in I.
  assert (Hp : isPromptToolUse (config ctx) = true).
  { unfold row, guard in I. destruct (isPromptToolUse (config ctx));
      [ reflexivity | discriminate I ]. }
  split; [ exact Hp | ].
  assert (R1 : row openrouter env w ctx SearchOrchestration =
               Some (SearchOrchestrationPlugin
                       (assistant (config ctx))
                       (topicId_or_empty (topicId (config ctx))))).
  { unfold row, guard. rewrite Hp, orb_true_r. reflexivity. }
  rewrite select_table. unfold table, table_order. cbn [flat_map].
  rewrite R1, I. cbn [opt_list app]. rewrite !app_assoc.
  eexists. reflexivity.
Qed.

(** X3.  The developer-mode setting changes nothing but the head of the
    sequence: what is selected with any setting is what is selected with
    developer mode off, preceded by the telemetry plugin when developer mode
    is on and the topic id is non-empty. *)
Theorem developer_mode_only_adds_leading_telemetry
        (w w_off : World) (ctx : BuildPluginsContext) :
  enableDeveloperMode w_off = false ->
  select openrouter env w ctx =
  ((if enableDeveloperMode w && truthy_string (topicId (config ctx)) then
      [ TelemetryPlugin {| tel_enabled := true;
                           tel_topicId := topicId_or_empty (topicId (config ctx));
                           tel_assistant := assistant (config ctx) |} ]
    else [])
   ++ select openrouter env w_off ctx)%list.
Proof.
  intro Hoff. rewrite !select_table. unfold table, table_order. cbn [flat_map].
  assert (R0 : row openrouter env w_off ctx Telemetry = None).
  { unfold row, guard. rewrite Hoff, andb_false_r. reflexivity. }
  rewrite R0. cbn [opt_list app].
  apply (f_equal2 (@app AiPlugin)); [ | reflexivity ].
  unfold row, guard, truthy_string, topicId_or_empty.
  destruct (topicId (config ctx)) as [t | ]; simpl.
  - destruct (t =? ""), (enableDeveloperMode w); reflexivity.
  - rewrite andb_false_r. reflexivity.
Qed.

(** X4.  The cache-control plugin and the reasoning-extraction plugin are
    never selected together: one needs the provider type anthropic, the
    other openai or azure-openai. *)
Theorem cache_control_excludes_reasoning_extraction
        (w : World) (ctx : BuildPluginsContext) :
  ~ (In AnthropicCachePlugin (select openrouter env w ctx)
     /\ exists tagName,
          In (ReasoningExtractionPlugin tagName) (select openrouter env w ctx)).
Proof.
  intros [Hc [tagName Hr]].
  apply in_select in Hc. apply in_select in Hr. simpl kind_of in *.
  unfold row, guard in Hc, Hr.
  destruct (provider_type (provider ctx) =? "anthropic") eqn:E;
    [ | discriminate Hc ].
  apply String.eqb_eq in E. rewrite E in Hr. discriminate Hr.
Qed.

(** X5.  The web-search plugin is selected exactly when web search is
    enabled and the request carries a web-search configuration, and it is
    made from that configuration; web search enabled without a
    configuration selects nothing. *)
Theorem web_search_rule
        (w : World) (ctx : BuildPluginsContext) (cfg : WebSearchPluginConfig) :
  In (WebSearchPlugin cfg) (select openrouter env w ctx) <->
  enableWebSearch (config ctx) = true
  /\ webSearchPluginConfig (config ctx) = Some cfg.
Proof.
  rewrite in_select. simpl kind_of. unfold row, guard, truthy_object.
  destruct (enableWebSearch (config ctx)),
           (webSearchPluginConfig (config ctx)) as [cfg' | ]; simpl; split.
  all: try (intro H; discriminate H).
  all: try (intros [H1 H2]; discriminate).
  - intro H. injection H as ->. split; reflexivity.
  - intros [_ H]. injection H as ->. reflexivity.
Qed.

(** X6.  The cache-control plugin is selected exactly when the provider type
    is anthropic and the provider has a cache-control setting whose token
    threshold is a truthy number, that is any number but 0, -0 and NaN; a
    missing setting, a threshold of 0 and a threshold of NaN select
    nothing. *)
Theorem cache_control_rule (w : World) (ctx : BuildPluginsContext) :
  In AnthropicCachePlugin (select openrouter env w ctx) <->
  provider_type (provider ctx) = "anthropic"
  /\ exists cc, anthropicCacheControl (provider ctx) = Some cc
                /\ tokenThreshold cc <> S754_nan
                /\ forall negative, tokenThreshold cc <> S754_zero negative.
Proof.
  rewrite in_select. simpl kind_of. unfold row, guard, truthy_threshold. split.
  - destruct (provider_type (provider ctx) =? "anthropic") eqn:E;
      [ | discriminate ].
    apply String.eqb_eq in E.
    destruct (anthropicCacheControl (provider ctx)) as [cc | ]; [ | discriminate ].
    destruct (tokenThreshold cc) eqn:N; try discriminate; intros _;
      (split; [ exact E | ]); exists cc; rewrite N;
      repeat split; try discriminate; intros; discriminate.
  - intros [E [cc [Hc [Hn Hz]]]]. rewrite E, Hc.
    destruct (tokenThreshold cc) as [negative | | | ]; try reflexivity.
    + exfalso. exact (Hz negative eq_refl).
    + exfalso. exact (Hn eq_refl).
Qed.

(** X7.  The think-suppression plugin is selected exactly when the provider
    id is ovms and the request carries at least one MCP tool; no tool list
    or an empty one selects nothing. *)
Theorem think_suppression_rule (w : World) (ctx : BuildPluginsContext) :
  In NoThinkPlugin (select openrouter env w ctx) <->
  provider_id (provider ctx) = "ovms"
  /\ exists tool tools, mcpTools (config ctx) = Some (tool :: tools).
Proof.
  rewrite in_select. simpl kind_of. unfold row, guard, has_mcp_tools. split.
  - destruct (provider_id (provider ctx) =? "ovms") eqn:E; [ | discriminate ].
    apply String.eqb_eq in E.
    destruct (mcpTools (config ctx)) as [[ | tool tools] | ]; try discriminate.
    intros _. split; [ exact E | ]. exists tool, tools. reflexivity.
  - intros [E [tool [tools Ht]]]. rewrite E, Ht. reflexivity.
Qed.

(** X8.  When the telemetry plugin and the search-orchestration plugin are
    both selected, they were given the same topic id and the same
    assistant. *)
Theorem telemetry_and_search_orchestration_share_topic
        (w : World) (ctx : BuildPluginsContext)
        (opts : TelemetryOptions) (a : option Assistant) (topic : string) :
  In (TelemetryPlugin opts) (select openrouter env w ctx) ->
  In (SearchOrchestrationPlugin a topic) (select openrouter env w ctx) ->
  topic = tel_topicId opts /\ a = tel_assistant opts.
Proof.
  intros Ht Hs. apply in_select in Ht. apply in_select in Hs.
  simpl kind_of in *. unfold row in Ht, Hs.
  destruct (guard openrouter env w ctx Telemetry) eqn:G; [ | discriminate Ht ].
  destruct (guard openrouter env w ctx SearchOrchestration); [ | discriminate Hs ].
  simpl in G. apply andb_true_iff in G. destruct G as [G _].
  destruct (topicId (config ctx)) as [t | ]; [ | discriminate Ht ].
  injection Ht as <-. injection Hs as <- <-. simpl in *.
  apply negb_true_iff in G. rewrite G. split; reflexivity.
Qed.

(** X9.  The selection reads nothing of the configuration but streamOutput,
    assistant, isPromptToolUse, isSupportedToolUse, enableWebSearch,
    webSearchPluginConfig, mcpMode, topicId, and whether mcpTools is
    non-empty: two requests that agree on these and on provider and model
    get the same plugins, whatever enableReasoning, enableUrlContext,
    enableGenerateImage, isImageGenerationEndpoint, knowledgeRecognition,
    onChunk, uiMessages and the tools themselves are. *)
Theorem unread_fields_do_not_matter (w : World) (ctx1 ctx2 : BuildPluginsContext) :
  provider ctx1 = provider ctx2 ->
  model ctx1 = model ctx2 ->
  streamOutput (config ctx1) = streamOutput (config ctx2) ->
  assistant (config ctx1) = assistant (config ctx2) ->
  isPromptToolUse (config ctx1) = isPromptToolUse (config ctx2) ->
  isSupportedToolUse (config ctx1) = isSupportedToolUse (config ctx2) ->
  enableWebSearch (config ctx1) = enableWebSearch (config ctx2) ->
  webSearchPluginConfig (config ctx1) = webSearchPluginConfig (config ctx2) ->
  mcpMode (config ctx1) = mcpMode (config ctx2) ->
  topicId (config ctx1) = topicId (config ctx2) ->
  has_mcp_tools (mcpTools (config ctx1)) = has_mcp_tools (mcpTools (config ctx2)) ->
  select openrouter env w ctx1 = select openrouter env w ctx2.
Proof.
  intros Hp Hm Hs Ha Hpt Hst Hw Hc Hmm Ht Hmt.
  rewrite !select_table. unfold table. apply flat_map_ext. intro k.
  destruct k; unfold row, guard; cbv zeta;
    rewrite ?Hp, ?Hm, ?Hs, ?Ha, ?Hpt, ?Hst, ?Hw, ?Hc, ?Hmm, ?Ht, ?Hmt; reflexivity.
Qed.

(** X10.  The guard of the thinking-token-control rule is evaluated from
    left to right and stops at the first operand that decides it: the
    provider is always asked whether it is Ollama; the model is asked for
    its Qwen thinking-token support only when the provider is not Ollama;
    and the provider is asked for its enable_thinking support only when,
    besides, the model has that support. *)
Theorem thinking_guard_short_circuits (w : World) (ctx : BuildPluginsContext) :
  let cs := calls env (buildPlugins openrouter ctx) w in
  In (isOllamaProvider (provider ctx)) cs
  /\ (In (isSupportedThinkingTokenQwenModel (model ctx)) cs <->
      ollamaProvider env (provider ctx) = false)
  /\ (In (isSupportEnableThinkingProvider (provider ctx)) cs <->
      ollamaProvider env (provider ctx) = false
      /\ thinkingTokenQwenModel env (model ctx) = true).
Proof.
  cbv zeta. split; [ | split; split ].
  - apply in_calls. left. exists ThinkingTokenControl. left. reflexivity.
  - intro H. apply in_calls in H. destruct H as [[k H] | H]; [ | discriminate H ].
    destruct k; in_statement H; reflexivity.
  - intro Ho. apply in_calls. left. exists ThinkingTokenControl.
    unfold statement_calls. cbv zeta. rewrite Ho. right. left. reflexivity.
  - intro H. apply in_calls in H. destruct H as [[k H] | H]; [ | discriminate H ].
    destruct k; in_statement H; split; reflexivity.
  - intros [Ho Hq]. apply in_calls. left. exists ThinkingTokenControl.
    unfold statement_calls. cbv zeta. rewrite Ho, Hq. right. right. left. reflexivity.
Qed.

(** X11.  The two parameter helpers are called only for the plugin they
    serve: the tag name is asked for exactly when the provider type is
    openai or azure-openai, and, for a model id of ASCII characters, only
    for that id with its letters A to Z lower-cased; the provider id is
    resolved exactly when the model is a Gemini 3 model, and for the
    provider of the request. *)
Theorem helpers_called_only_when_needed (w : World) (ctx : BuildPluginsContext) :
  let cs := calls env (buildPlugins openrouter ctx) w in
  ((exists modelId, In (getReasoningTagName modelId) cs) <->
   provider_type (provider ctx) = "openai"
   \/ provider_type (provider ctx) = "azure-openai")
  /\ (ascii_only (model_id (model ctx)) = true ->
      forall modelId,
        In (getReasoningTagName modelId) cs ->
        modelId = toLowerCase (model_id (model ctx)))
  /\ (forall p,
         In (getAiSdkProviderId p) cs <->
         p = provider ctx /\ gemini3Model env (model ctx) = true).
Proof.
  cbv zeta. split; [ split | split; [ | intro p; split ] ].
  - intros [modelId H].
    apply in_calls in H. destruct H as [[k H] | H]; [ | discriminate H ].
    destruct k; in_statement H.
    match goal with
    | E : _ || _ = true |- _ =>
        apply orb_true_iff in E; rewrite !String.eqb_eq in E; exact E
    end.
  - intro Ht. apply type_is_completion_api in Ht.
    exists (toLowerCase (model_id (model ctx))).
    apply in_calls. left. exists ReasoningExtraction.
    unfold statement_calls. cbv zeta. rewrite Ht. left. reflexivity.
  - intros _ modelId H.
    apply in_calls in H. destruct H as [[k H] | H]; [ | discriminate H ].
    destruct k; in_statement H.
    injection H as <-. reflexivity.
  - intro H. apply in_calls in H. destruct H as [[k H] | H]; [ | discriminate H ].
    destruct k; in_statement H.
    injection H as <-. split; reflexivity.
  - intros [-> Hg]. apply in_calls. left. exists SignatureStripping.
    unfold statement_calls. cbv zeta. rewrite Hg. right. left. reflexivity.
Qed.

(** X12.  The returned plugins are exactly the instances made by the factory
    calls of the run, in the order of the calls: a factory is called once
    for each plugin of the sequence and for nothing else. *)
Theorem factories_called_once_per_plugin (w : World) (ctx : BuildPluginsContext) :
  built (calls env (buildPlugins openrouter ctx) w) = select openrouter env w ctx.
Proof.
  rewrite calls_buildPlugins, built_app, select_table.
  assert (L : forall msg payload, built [ logger_debug msg payload ] = [])
    by reflexivity.
  rewrite L, app_nil_r. unfold table.
  induction table_order as [ | k l IH]; simpl.
  - reflexivity.
  - rewrite built_app, built_statement, IH. reflexivity.
Qed.

Lemma callsE_upto_error (Err : Type) (h : Handler Err) (w : World)
      (A : Type) (p : Prog A) :
  (forall c x, h c = inr x -> x = fst (handle env c w)) ->
  forall w', enableDeveloperMode w' = enableDeveloperMode w ->
  callsE h p = upto_error h (calls env p w').
Proof.
  intro H. induction p as [a | c k IH]; intros w' Hw; simpl.
  - reflexivity.
  - destruct (h c) as [e | x] eqn:Hc; [ reflexivity | ].
    apply H in Hc. destruct (@handle_setting c w w' Hw) as [E1 E2].
    rewrite <- E1 in Hc. destruct (handle env c w') as [x' w'']. simpl in *.
    subst x'. rewrite (IH x w'' E2). reflexivity.
Qed.

(** X13.  For a model id of ASCII characters (on which [toLowerCase] is the
    JS method), the calls of a run without throws are, statement by
    statement, the calls of [statement_calls], then the call of the logger.
    With
    collaborators that may throw and otherwise return what the pure
    collaborators return, the selector makes these calls up to the first
    one that throws and no call after it, and throws that call's error;
    when none of them throws it returns the plugins of the table. *)
Theorem error_of_the_first_failing_call
        (Err : Type) (h : Handler Err) (w : World) (ctx : BuildPluginsContext) :
  ascii_only (model_id (model ctx)) = true ->
  (forall c x, h c = inr x -> x = fst (handle env c w)) ->
  let trace :=
    (flat_map (statement_calls openrouter env w ctx) table_order
     ++ [ logger_debug "Final plugin list:" (names (table openrouter env w ctx)) ])%list in
  runE h (buildPlugins openrouter ctx) =
    match first_error h trace with
    | Some e => inl e
    | None => inr (table openrouter env w ctx)
    end
  /\ callsE h (buildPlugins openrouter ctx) = upto_error h trace.
Proof.
  intros _ H. cbv zeta. rewrite <- select_table, <- calls_buildPlugins. split.
  - unfold select. apply (runE_first_error h w (buildPlugins openrouter ctx) H).
    reflexivity.
  - apply (callsE_upto_error h w (buildPlugins openrouter ctx) H). reflexivity.
Qed.

(** ** The function on a context that was not type-checked *)

Section UntypedRuns.

Variable Err : Type.
Variable h : JsHandler Err.

Lemma runJs_bind (A B : Type) (p : JsProg A) (f : A -> JsProg B) :
  runJs h (bindJs p f) =
  match runJs h p with
  | Returned a => runJs h (f a)
  | Raised e => Raised e
  | Failed t => Failed t
  end.
Proof.
  induction p as [a | t | c k IH]; simpl; try reflexivity.
  destruct (h c) as [e | x]; [ reflexivity | apply IH ].
Qed.

Lemma runJs_step (A B : Type) (p : JsProg A) (f : A -> JsProg B) (a : A) :
  runJs h p = Returned a -> runJs h (bindJs p f) = runJs h (f a).
Proof. intro H. rewrite runJs_bind, H. reflexivity. Qed.

Lemma runJs_bind_failed (A B : Type) (p : JsProg A) (f : A -> JsProg B) (t : TypeError) :
  runJs h (bindJs p f) = Failed t ->
  runJs h p = Failed t
  \/ exists a, runJs h p = Returned a /\ runJs h (f a) = Failed t.
Proof.
  rewrite runJs_bind. destruct (runJs h p) as [a | e | t'].
  - intro H. right. exists a. split; [ reflexivity | exact H ].
  - discriminate.
  - intro H. injection H as ->. left. reflexivity.
Qed.

Lemma runJs_bind_raised (A B : Type) (p : JsProg A) (f : A -> JsProg B) (e : Err) :
  runJs h (bindJs p f) = Raised e ->
  runJs h p = Raised e
  \/ exists a, runJs h p = Returned a /\ runJs h (f a) = Raised e.
Proof.
  rewrite runJs_bind. destruct (runJs h p) as [a | e' | t'].
  - intro H. right. exists a. split; [ reflexivity | exact H ].
  - intro H. injection H as ->. left. reflexivity.
  - discriminate.
Qed.

Lemma runJs_raised (A : Type) (p : JsProg A) (e : Err) :
  runJs h p = Raised e -> exists c, h c = inl e.
Proof.
  induction p as [a | t | c k IH]; simpl; try discriminate.
  destruct (h c) as [e' | x] eqn:Hc.
  - intro H. injection H as <-. exists c. exact Hc.
  - apply IH.
Qed.

Lemma from_factories_push (plugins : list (option AiPlugin)) (x : option AiPlugin)
      (c : JsCall) :
  from_factories h plugins ->
  factory_value h c = Some x ->
  from_factories h (pushJs plugins x).
Proof.
  intros I F Hin. unfold pushJs in Hin. apply in_app_or in Hin.
  destruct Hin as [Hin | [<- | []]]; [ apply I, Hin | ].
  exists c. exact F.
Qed.

End UntypedRuns.

Lemma names_of_some (l : list AiPlugin) : names_of (map Some l) = inr (map name l).
Proof. induction l as [ | p l IH]; simpl; [ | rewrite IH ]; reflexivity. Qed.

Lemma names_of_failed (l : list (option AiPlugin)) (t : TypeError) :
  names_of l = inl t -> t = cannot_read "name" /\ In None l.
Proof.
  induction l as [ | [p | ] l IH]; simpl.
  - discriminate.
  - destruct (names_of l) as [t' | ns]; [ | discriminate ].
    intro H. injection H as <-. destruct (IH eq_refl) as [E I].
    split; [ exact E | right; exact I ].
  - intro H. injection H as <-. split; [ reflexivity | left; reflexivity ].
Qed.

(* One statement of the function, run with the pure collaborators. *)
Ltac js_statement r acc k :=
  let acc' := fresh "plugins" in
  match goal with
  | |- runJs ?h (bindJs ?s ?f) = _ =>
      rewrite (@runJs_step _ h _ _ s f (acc ++ map Some (opt_list (r k)))%list);
      [ cbv beta; set (acc' := (acc ++ map Some (opt_list (r k)))%list);
        cbn [read bindJs]
      | clearbody acc;
        unfold row, guard, andJs, notJs, callJs, pushJs, read, truthy_string;
        repeat (simpl; unfold on_model, as_model; simpl;
                match goal with
                | |- context [if ?b then _ else _] => split_bool b
                | |- context [match ?o with Some _ => _ | None => _ end] =>
                    destruct o eqn:?
                end);
        unfold on_model, as_model; simpl; rewrite ?app_nil_r;
        try reflexivity; try discriminate ]
  end.

Lemma runJs_of_typed (Err : Type) (w : World) (ctx : BuildPluginsContext) :
  runJs (pure_js Err env w) (buildPluginsJs openrouter (of_typed ctx)) =
  Returned (map Some (select openrouter env w ctx)).
Proof.
  rewrite select_table.
  destruct ctx as [p [id rest] c].
  unfold buildPluginsJs, of_typed. cbv zeta.
  cbn [js_config js_provider js_model provider model config model_id model_rest
       read bindJs].
  set (ctx := {| provider := p; model := {| model_id := id; model_rest := rest |};
                 config := c |}).
  set (plugins := @nil (option AiPlugin)).
  js_statement (row openrouter env w ctx) plugins Telemetry.
  js_statement (row openrouter env w ctx) plugins0 ReasoningExtraction.
  js_statement (row openrouter env w ctx) plugins1 SimulateStreaming.
  js_statement (row openrouter env w ctx) plugins2 CacheControl.
  js_statement (row openrouter env w ctx) plugins3 ReasoningRedaction.
  js_statement (row openrouter env w ctx) plugins4 ThinkSuppression.
  js_statement (row openrouter env w ctx) plugins5 ThinkingTokenControl.
  js_statement (row openrouter env w ctx) plugins6 ImageGenerationRedirect.
  js_statement (row openrouter env w ctx) plugins7 SignatureStripping.
  js_statement (row openrouter env w ctx) plugins8 WebSearch.
  js_statement (row openrouter env w ctx) plugins9 SearchOrchestration.
  js_statement (row openrouter env w ctx) plugins10 PromptToolUse.
  assert (E : plugins11 = map Some (table openrouter env w ctx)).
  { subst plugins11 plugins10 plugins9 plugins8 plugins7 plugins6 plugins5
          plugins4 plugins3 plugins2 plugins1 plugins0 plugins.
    unfold table, table_order. cbn [flat_map].
    rewrite !map_app, <- !app_assoc. cbn [map]. rewrite app_nil_r. reflexivity. }
  rewrite E, names_of_some. reflexivity.
Qed.

(* Case analysis of a run of one statement, [H : runJs h s = o]. *)
Ltac js_run H :=
  repeat (cbn [runJs bindJs] in H;
          unfold andJs, notJs, callJs, read in H;
          cbn [runJs bindJs] in H;
          match type of H with
          | context [match ?x with inl _ => _ | inr _ => _ end] => destruct x eqn:?
          | context [if ?b then _ else _] => destruct b eqn:?
          | context [match ?o with Some _ => _ | None => _ end] => destruct o eqn:?
          end);
  cbn [runJs bindJs] in H.

(* The array after a statement holds no [undefined] but from a factory. *)
Ltac js_array I :=
  first
    [ exact I
    | match goal with
      | Hc : ?h ?c = inr ?x |- from_factories ?h (pushJs _ ?x) =>
          apply (@from_factories_push _ h _ x c I);
          unfold factory_value; rewrite Hc; reflexivity
      end ].

(* One statement of a run that ends in a TypeError: either the statement
   threw it, or the statement returned an array and the rest threw it. *)
Ltac js_next h H I :=
  let acc := fresh "plugins" in
  let H0 := fresh "H0" in
  let I' := fresh "I" in
  apply runJs_bind_failed in H; destruct H as [H | [acc [H0 H]]];
  [ js_run H; try discriminate H
  | assert (I' : from_factories h acc)
      by (clear H; js_run H0; try discriminate H0; injection H0 as <-; js_array I);
    clear H0; cbv beta in H ].

Lemma own_failures (Err : Type) (h : JsHandler Err) (js : JsContext) (t : TypeError) :
  runJs h (buildPluginsJs openrouter js) = Failed t ->
  (js_config js = None /\ t = cannot_read "topicId")
  \/ (js_provider js = None /\ t = cannot_read "type")
  \/ (exists p,
         js_provider js = Some p
         /\ (provider_type p =? "openai") || (provider_type p =? "azure-openai") = true
         /\ js_model js = None /\ t = cannot_read "id")
  \/ (exists p m,
         js_provider js = Some p
         /\ (provider_type p =? "openai") || (provider_type p =? "azure-openai") = true
         /\ js_model js = Some m /\ js_id m = None /\ t = cannot_read "toLowerCase")
  \/ (t = cannot_read "name" /\ exists c, factory_value h c = Some None).
Proof.
  intro H. unfold buildPluginsJs in H. cbv zeta in H.
  destruct (js_config js) as [config | ] eqn:Hcfg; cbn [read bindJs runJs] in H.
  2: { left. injection H as <-. split; reflexivity. }
  assert (I : from_factories h []) by (intros []).
  js_next h H I.
  destruct (js_provider js) as [provider | ] eqn:Hprov; cbn [read bindJs runJs] in H.
  2: { right. left. injection H as <-. split; reflexivity. }
  js_next h H I0.
  1, 2: injection H as <-.
  { do 3 right. left. exists provider, j. repeat split; assumption. }
  { do 2 right. left. exists provider. repeat split; assumption. }
  js_next h H I1.
  js_next h H I2.
  js_next h H I3.
  js_next h H I4.
  js_next h H I5.
  js_next h H I6.
  js_next h H I7.
  js_next h H I8.
  js_next h H I9.
  js_next h H I10.
  destruct (names_of plugins10) as [e | ns] eqn:N; cbn [runJs bindJs] in H.
  - injection H as <-. apply names_of_failed in N. destruct N as [-> Hin].
    do 4 right. split; [ reflexivity | apply I11, Hin ].
  - js_run H; discriminate H.
Qed.

(* One statement of a run that ends in the error of a collaborator. *)
Ltac js_next_raised H :=
  let acc := fresh "plugins" in
  let H0 := fresh "H0" in
  apply runJs_bind_raised in H; destruct H as [H | [acc [H0 H]]];
  [ js_run H; try discriminate H | clear H0; cbv beta in H ].

(* The call that threw is a call site. *)
Ltac js_site :=
  match goal with
  | H : Raised ?e' = Raised ?e, Hc : ?h ?c = inl ?e' |- exists c', _ /\ ?h c' = inl ?e =>
      injection H as <-; exists c; split; [ cbn [js_call_site] | exact Hc ]
  end.

Lemma raised_origin (Err : Type) (h : JsHandler Err) (js : JsContext) (e : Err) :
  runJs h (buildPluginsJs openrouter js) = Raised e ->
  exists c, js_call_site js c /\ h c = inl e.
Proof.
  intro H. unfold buildPluginsJs in H. cbv zeta in H.
  destruct (js_config js) as [config | ] eqn:Hcfg; cbn [read bindJs runJs] in H;
    [ | discriminate H ].
  js_next_raised H.
  1, 2: js_site; eauto 10.
  destruct (js_provider js) as [provider | ] eqn:Hprov; cbn [read bindJs runJs] in H;
    [ | discriminate H ].
  js_next_raised H.
  1, 2: js_site; eauto 10.
  js_next_raised H. 1: js_site; eauto 10.
  js_next_raised H. 1: js_site; eauto 10.
  js_next_raised H. 1: js_site; eauto 10.
  js_next_raised H. 1: js_site; eauto 10.
  js_next_raised H. 1-4: js_site; eauto 10.
  js_next_raised H. 1, 2: js_site; eauto 10.
  js_next_raised H. 1-3: js_site; eauto 10.
  js_next_raised H. 1: js_site; eauto 10.
  js_next_raised H. 1: js_site; eauto 10.
  js_next_raised H. 1: js_site; eauto 10.
  destruct (names_of plugins10) as [t | ns] eqn:N; cbn [runJs bindJs] in H;
    [ discriminate H | ].
  js_run H; try discriminate H. js_site. reflexivity.
Qed.

Section OwnFailures.

Variable Err : Type.
Variable h : JsHandler Err.
Variable js : JsContext.
Hypothesis returns : forall c, exists x, h c = inr x.

Lemma not_raised (A : Type) (p : JsProg A) (e : Err) : runJs h p <> Raised e.
Proof.
  intro H. apply runJs_raised in H. destruct H as [c Hc].
  destruct (returns c) as [x Hx]. congruence.
Qed.

(* The telemetry statement returns: it has no throw of its own. *)
Ltac past_telemetry :=
  rewrite runJs_bind;
  match goal with
  | |- match ?r with Returned _ => _ | Raised _ => _ | Failed _ => _ end = _ =>
      let E := fresh "E" in
      destruct r as [? | ? | ?] eqn:E;
      [ | exfalso; exact (not_raised _ E) | js_run E; discriminate E ]
  end.

Lemma missing_config :
  js_config js = None ->
  runJs h (buildPluginsJs openrouter js) = Failed (cannot_read "topicId").
Proof. intro Hc. unfold buildPluginsJs. rewrite Hc. reflexivity. Qed.

Lemma missing_provider (cfg : Config) :
  js_config js = Some cfg ->
  js_provider js = None ->
  runJs h (buildPluginsJs openrouter js) = Failed (cannot_read "type").
Proof.
  intros Hc Hp. unfold buildPluginsJs. cbv zeta. rewrite Hc. cbn [read bindJs].
  past_telemetry. rewrite Hp. reflexivity.
Qed.

Lemma missing_model (cfg : Config) (p : Provider) :
  js_config js = Some cfg ->
  js_provider js = Some p ->
  (provider_type p =? "openai") || (provider_type p =? "azure-openai") = true ->
  js_model js = None ->
  runJs h (buildPluginsJs openrouter js) = Failed (cannot_read "id").
Proof.
  intros Hc Hp Ht Hm. unfold buildPluginsJs. cbv zeta. rewrite Hc. cbn [read bindJs].
  past_telemetry. rewrite Hp. cbn [read bindJs]. rewrite Ht, Hm. reflexivity.
Qed.

Lemma missing_id (cfg : Config) (p : Provider) (m : JsModel) :
  js_config js = Some cfg ->
  js_provider js = Some p ->
  (provider_type p =? "openai") || (provider_type p =? "azure-openai") = true ->
  js_model js = Some m ->
  js_id m = None ->
  runJs h (buildPluginsJs openrouter js) = Failed (cannot_read "toLowerCase").
Proof.
  intros Hc Hp Ht Hm Hi. unfold buildPluginsJs. cbv zeta. rewrite Hc. cbn [read bindJs].
  past_telemetry. rewrite Hp. cbn [read bindJs]. rewrite Ht, Hm. cbn [read bindJs].
  rewrite Hi. reflexivity.
Qed.

End OwnFailures.



End Properties.

(** ** The claims on concrete requests *)

#[local] Existing Instance unit_types.

Import Requests.

Example select_gpt4o :
  select openrouter_id no_capabilities developer_mode_on gpt4o_request =
  [ ReasoningExtractionPlugin "think"; SimulateStreamingPlugin ].
Proof. reflexivity. Qed.

Example select_traced :
  names (select openrouter_id no_capabilities developer_mode_on traced_request) =
  [ "telemetry"; "reasoning-extraction"; "simulate-streaming" ].
Proof. reflexivity. Qed.

Example select_qwen :
  select openrouter_id family_capabilities developer_mode_off qwen_request =
  [ QwenThinkingPlugin true ].
Proof. reflexivity. Qed.

Example select_tools :
  names (select openrouter_id no_capabilities developer_mode_off tools_request) =
  [ "search-orchestration"; "prompt-tool-use" ].
Proof. reflexivity. Qed.

Example log_of_gpt4o :
  logged (snd (run no_capabilities (buildPlugins openrouter_id gpt4o_request)
                   developer_mode_off)) =
  [ ("Final plugin list:", [ "reasoning-extraction"; "simulate-streaming" ]) ].
Proof. reflexivity. Qed.

Example calls_of_gpt4o :
  calls no_capabilities (buildPlugins openrouter_id gpt4o_request) developer_mode_on =
  [ getReasoningTagName "gpt-4o";
    createReasoningExtractionPlugin "think";
    createSimulateStreamingPlugin;
    isOllamaProvider (a_provider "openai" "openai");
    isSupportedThinkingTokenQwenModel (a_model "gpt-4o");
    isOpenRouterGeminiGenerateImageModel (a_model "gpt-4o") (a_provider "openai" "openai");
    isGemini3Model (a_model "gpt-4o");
    logger_debug "Final plugin list:" [ "reasoning-extraction"; "simulate-streaming" ] ].
Proof. reflexivity. Qed.

Example throwing_factory_propagates :
  runE throwing (buildPlugins openrouter_id gpt4o_request) =
  inl "simulateStreaming failed".
Proof. reflexivity. Qed.

(** C1, as stated, fails.  The request [traced_request] is sent twice; between
    the two calls the developer-mode setting is switched off.  The contexts
    are identical, and the names differ: the telemetry plugin is in the first
    sequence only. *)
Lemma select_depends_on_developer_mode :
  names (select openrouter_id no_capabilities developer_mode_on traced_request) =
    [ "telemetry"; "reasoning-extraction"; "simulate-streaming" ]
  /\ names (select openrouter_id no_capabilities developer_mode_off traced_request) =
       [ "reasoning-extraction"; "simulate-streaming" ]
  /\ ~ (forall (w1 w2 : World) (ctx1 ctx2 : BuildPluginsContext),
           ctx1 = ctx2 ->
           names (select openrouter_id no_capabilities w1 ctx1) =
           names (select openrouter_id no_capabilities w2 ctx2)).
Proof.
  split; [ reflexivity | split; [ reflexivity | ] ].
  intro H.
  specialize (H developer_mode_on developer_mode_off traced_request traced_request eq_refl).
  discriminate H.
Qed.

(** Witness of C1 (amended): the same request, sent once with developer mode
    on and once, the logger having seen a line in between, with developer
    mode off. *)
Lemma same_setting_witness :
  let later := {| enableDeveloperMode := false;
                  logged := [ ("Final plugin list:", [ "telemetry" ]) ] |} in
  let same_setting :=
    enableDeveloperMode developer_mode_on = enableDeveloperMode later
    \/ truthy_string (topicId (config traced_request)) = false in
  (select openrouter_id no_capabilities developer_mode_on traced_request =
     select openrouter_id no_capabilities later traced_request <-> same_setting)
  /\ (names (select openrouter_id no_capabilities developer_mode_on traced_request) =
        names (select openrouter_id no_capabilities later traced_request)
      <-> same_setting).
Proof.
  cbv zeta.
  apply (@same_context_same_selection_iff_same_setting
           unit_types openrouter_id no_capabilities developer_mode_on _
           traced_request traced_request).
  reflexivity.
Defined.

(** Witness of C3: a traced OpenAI request that does not stream. *)
Lemma reasoning_extraction_witness :
  let out := select openrouter_id no_capabilities developer_mode_on traced_request in
  (exists i,
      nth_error out i = Some (ReasoningExtractionPlugin "think")
      /\ nth_error out (S i) = Some SimulateStreamingPlugin)
  /\ (forall i j p q,
         nth_error out i = Some p -> kind_of p = ReasoningExtraction ->
         nth_error out j = Some q -> kind_of q = SimulateStreaming ->
         i < j).
Proof.
  apply (@reasoning_extraction_precedes_simulate_streaming
           unit_types openrouter_id no_capabilities developer_mode_on traced_request).
  - left. reflexivity.
  - reflexivity.
Defined.

(** Witness of C4: a streamed request no rule applies to. *)
Lemma no_guard_witness :
  (forall k, guard openrouter_id no_capabilities developer_mode_on quiet_request k = false)
  /\ select openrouter_id no_capabilities developer_mode_on quiet_request = [].
Proof.
  assert (G : forall k,
             guard openrouter_id no_capabilities developer_mode_on quiet_request k = false)
    by (intro k; destruct k; reflexivity).
  split; [ exact G | ].
  apply (@no_guard_no_plugin unit_types openrouter_id no_capabilities
                             developer_mode_on quiet_request G).
Defined.

(** Witness of C5: a request inside a topic, developer mode off. *)
Lemma no_telemetry_witness :
  let out := select openrouter_id no_capabilities developer_mode_off traced_request in
  ~ In Telemetry (map kind_of out)
  /\ ~ In "telemetry" (names out)
  /\ (forall opts, ~ In (TelemetryPlugin opts) out).
Proof.
  apply (@no_telemetry_without_developer_mode
           unit_types openrouter_id no_capabilities developer_mode_off traced_request).
  reflexivity.
Defined.

(** Witness of C6: a request with both kinds of tool use. *)
Lemma search_orchestration_witness :
  let out := select openrouter_id no_capabilities developer_mode_off tools_request in
  (exists i,
      nth_error out i = Some (SearchOrchestrationPlugin None "")
      /\ nth_error out (S i) =
           Some (PromptToolUsePlugin {| ptu_enabled := true; ptu_mcpMode := None |})
      /\ length out = S (S i))
  /\ (forall i j p q,
         nth_error out i = Some p -> kind_of p = SearchOrchestration ->
         nth_error out j = Some q -> kind_of q = PromptToolUse ->
         i < j).
Proof.
  apply (@search_orchestration_precedes_prompt_tool_use
           unit_types openrouter_id no_capabilities developer_mode_off tools_request);
    reflexivity.
Defined.

(** Witness of C7: the request of the example. *)
Lemma openai_gpt4o_witness :
  select openrouter_id no_capabilities developer_mode_on gpt4o_request =
    [ ReasoningExtractionPlugin "think"; SimulateStreamingPlugin ]
  /\ names (select openrouter_id no_capabilities developer_mode_on gpt4o_request) =
       [ "reasoning-extraction"; "simulate-streaming" ].
Proof.
  apply (@openai_gpt4o_selection
           unit_types openrouter_id no_capabilities developer_mode_on gpt4o_request);
    reflexivity.
Defined.

(** In the typed embedding: every plugin factory and every capability
    predicate returns, the model is taken for a Gemini 3 model, and the
    provider-id resolver throws.  The selector throws the resolver's error,
    which no factory and no predicate raised. *)
Lemma resolver_error_reaches_the_caller :
  (forall c, collaborator c = PluginFactory \/ collaborator c = CapabilityPredicate ->
             exists x, resolver_throws c = inr x)
  /\ runE resolver_throws (buildPlugins openrouter_id quiet_request) =
       inl "unknown provider"
  /\ (forall c, resolver_throws c = inl "unknown provider" ->
                collaborator c = ParameterHelper)
  /\ ~ (forall (h : Handler string) (ctx : BuildPluginsContext),
           (forall c, collaborator c = PluginFactory
                      \/ collaborator c = CapabilityPredicate ->
                      exists x, h c = inr x) ->
           exists plugins, runE h (buildPlugins openrouter_id ctx) = inr plugins).
Proof.
  assert (R : forall c, collaborator c = PluginFactory
                        \/ collaborator c = CapabilityPredicate ->
                        exists x, resolver_throws c = inr x).
  { intros c [K | K]; destruct c; try discriminate K; eexists; reflexivity. }
  split; [ exact R | split; [ reflexivity | split ] ].
  - intros c H. destruct c; try discriminate H. reflexivity.
  - intro H. destruct (H resolver_throws quiet_request R) as [plugins E].
    discriminate E.
Qed.

(** Witness of C10: a request without a topic while developer mode is on, and
    the telemetry plugin of a request inside a topic. *)
Lemma telemetry_topic_witness :
  (~ In Telemetry
        (map kind_of (select openrouter_id no_capabilities developer_mode_on gpt4o_request))
   /\ ~ In getEnableDeveloperMode
           (calls no_capabilities (buildPlugins openrouter_id gpt4o_request)
                  developer_mode_on))
  /\ (forall opts,
         In (TelemetryPlugin opts)
            (select openrouter_id no_capabilities developer_mode_on traced_request) ->
         topicId (config traced_request) = Some (tel_topicId opts)
         /\ tel_topicId opts <> ""
         /\ tel_enabled opts = true
         /\ tel_assistant opts = assistant (config traced_request)).
Proof.
  split.
  - apply (proj1 (@telemetry_needs_a_topic
                    unit_types openrouter_id no_capabilities developer_mode_on
                    gpt4o_request)).
    left. reflexivity.
  - apply (proj2 (@telemetry_needs_a_topic
                    unit_types openrouter_id no_capabilities developer_mode_on
                    traced_request)).
Defined.

(** ** The further properties on concrete requests *)

Import Variants.

Example select_request_a :
  names (select openrouter_id no_capabilities developer_mode_on request_a) =
  [ "telemetry"; "reasoning-extraction"; "simulate-streaming";
    "think-suppression"; "web-search"; "search-orchestration" ].
Proof. reflexivity. Qed.

Example calls_of_ollama_request :
  calls family_capabilities (buildPlugins openrouter_id ollama_request)
        developer_mode_on =
  [ isOllamaProvider (a_provider "ollama" "ollama");
    isOpenRouterGeminiGenerateImageModel (a_model "qwen3-8b")
                                         (a_provider "ollama" "ollama");
    isGemini3Model (a_model "qwen3-8b");
    logger_debug "Final plugin list:" [] ].
Proof. reflexivity. Qed.

Example first_throw_wins :
  runE two_throw (buildPlugins openrouter_id gpt4o_request) = inl "no tag name".
Proof. reflexivity. Qed.

(** Witness of X2: prompt-simulated tool use without native tool use. *)
Lemma prompt_tool_use_witness :
  isPromptToolUse (config prompt_tools_request) = true
  /\ exists front,
       select openrouter_id no_capabilities developer_mode_off prompt_tools_request =
       (front ++ [ SearchOrchestrationPlugin (Some (an_assistant None)) "topic-1";
                   PromptToolUsePlugin {| ptu_enabled := true;
                                          ptu_mcpMode := None |} ])%list.
Proof.
  apply (@prompt_tool_use_follows_search_orchestration
           unit_types openrouter_id no_capabilities developer_mode_off
           prompt_tools_request {| ptu_enabled := true; ptu_mcpMode := None |}).
  right. left. reflexivity.
Defined.

(** Witness of X3: a request inside a topic, with developer mode on and
    off. *)
Lemma leading_telemetry_witness :
  select openrouter_id no_capabilities developer_mode_on traced_request =
  ([ TelemetryPlugin {| tel_enabled := true; tel_topicId := "topic-1";
                        tel_assistant := None |} ]
   ++ select openrouter_id no_capabilities developer_mode_off traced_request)%list.
Proof.
  apply (@developer_mode_only_adds_leading_telemetry
           unit_types openrouter_id no_capabilities developer_mode_on
           developer_mode_off traced_request).
  reflexivity.
Defined.

(** Witness of X8: a traced request with prompt-simulated tool use, while
    developer mode is on. *)
Lemma shared_topic_witness :
  let out := select openrouter_id no_capabilities developer_mode_on
                    prompt_tools_request in
  let opts := {| tel_enabled := true; tel_topicId := "topic-1";
                 tel_assistant := Some (an_assistant None) |} in
  (In (TelemetryPlugin opts) out
   /\ In (SearchOrchestrationPlugin (Some (an_assistant None)) "topic-1") out)
  /\ "topic-1" = tel_topicId opts
  /\ Some (an_assistant None) = tel_assistant opts.
Proof.
  cbv zeta.
  assert (I1 : In (TelemetryPlugin {| tel_enabled := true; tel_topicId := "topic-1";
                                      tel_assistant := Some (an_assistant None) |})
                  (select openrouter_id no_capabilities developer_mode_on
                          prompt_tools_request))
    by (left; reflexivity).
  assert (I2 : In (SearchOrchestrationPlugin (Some (an_assistant None)) "topic-1")
                  (select openrouter_id no_capabilities developer_mode_on
                          prompt_tools_request))
    by (right; left; reflexivity).
  split; [ split; [ exact I1 | exact I2 ] | ].
  exact (@telemetry_and_search_orchestration_share_topic
           unit_types openrouter_id no_capabilities developer_mode_on
           prompt_tools_request _ _ _ I1 I2).
Defined.

(** Witness of X9: two requests that differ in every field the function
    does not read. *)
Lemma unread_fields_witness :
  select openrouter_id no_capabilities developer_mode_on request_a =
  select openrouter_id no_capabilities developer_mode_on request_b.
Proof.
  apply (@unread_fields_do_not_matter
           unit_types openrouter_id no_capabilities developer_mode_on
           request_a request_b); reflexivity.
Defined.

(** Witness of X13: the tag-name helper and the logger both throw; the
    helper is called first, its error is the one thrown, and no call is made
    after it. *)
Lemma first_error_witness :
  let trace :=
    (flat_map (statement_calls openrouter_id no_capabilities developer_mode_off
                               gpt4o_request) table_order
     ++ [ logger_debug "Final plugin list:"
            (names (table openrouter_id no_capabilities developer_mode_off
                          gpt4o_request)) ])%list in
  runE two_throw (buildPlugins openrouter_id gpt4o_request) =
    match first_error two_throw trace with
    | Some e => inl e
    | None => inr (table openrouter_id no_capabilities developer_mode_off gpt4o_request)
    end
  /\ callsE two_throw (buildPlugins openrouter_id gpt4o_request) =
       upto_error two_throw trace.
Proof.
  apply (@error_of_the_first_failing_call
           unit_types openrouter_id no_capabilities string two_throw
           developer_mode_off gpt4o_request).
  - reflexivity.
  - intros c x H. destruct c; cbv in H;
      first [ discriminate H | injection H as <-; reflexivity ].
Defined.

Example first_throw_stops_the_run :
  callsE two_throw (buildPlugins openrouter_id gpt4o_request) =
  [ getReasoningTagName "gpt-4o" ].
Proof. reflexivity. Qed.

Example lower_cased_model_id :
  calls no_capabilities (buildPlugins openrouter_id upper_case_request)
        developer_mode_off =
  [ getReasoningTagName "gpt-4o";
    createReasoningExtractionPlugin "think";
    isOllamaProvider (a_provider "openai" "openai");
    isSupportedThinkingTokenQwenModel (a_model "GPT-4o");
    isOpenRouterGeminiGenerateImageModel (a_model "GPT-4o") (a_provider "openai" "openai");
    isGemini3Model (a_model "GPT-4o");
    logger_debug "Final plugin list:" [ "reasoning-extraction" ] ].
Proof. reflexivity. Qed.

Example no_cache_control_for_NaN :
  select openrouter_id no_capabilities developer_mode_off (anthropic_request S754_nan) = []
  /\ select openrouter_id no_capabilities developer_mode_off
            (anthropic_request (S754_zero true)) = []
  /\ select openrouter_id no_capabilities developer_mode_off
            (anthropic_request (S754_finite false 4503599627370496 (-42))) =
     [ AnthropicCachePlugin ].
Proof. repeat split. Qed.

(** ** The function on requests that were not type-checked *)

Example run_without_model_id :
  runJs js_returning (buildPluginsJs openrouter_id no_id_request) =
  Failed (cannot_read "toLowerCase").
Proof. reflexivity. Qed.

Example run_with_undefined_plugin :
  runJs js_undefined_plugin (buildPluginsJs openrouter_id (of_typed gpt4o_request)) =
  Failed (cannot_read "name").
Proof. reflexivity. Qed.

Example run_of_typed_request :
  runJs js_returning (buildPluginsJs openrouter_id (of_typed gpt4o_request)) =
  Returned [ Some (ReasoningExtractionPlugin "think"); Some SimulateStreamingPlugin ].
Proof. reflexivity. Qed.


